(** * goals_monitor: alert state machine, sample store, daily summary

    A shallow embedding of [ops/monitor/goals_monitor.py].  Python values are
    modelled as follows.

    - [int] is [Z] (unbounded in both languages).
    - [float] is [Q]: arithmetic is exact, IEEE rounding and overflow are not
      part of the model.
    - [str] is [string], one [ascii] per character.
    - the two status strings ["UP"] and ["DOWN"] are the constructors of
      [Status].
    - a raised exception is [None] (or the [Raise] outcome of the small
      monad used for the summary scan, which keeps the mutations made
      before the raise).
    - the clock ([datetime.now]) and the JSON codec ([json.loads],
      [json.dumps]) are parameters of the functions that use them. *)

From stdpp Require Import base gmap strings list.
From Stdlib Require Import ZArith QArith Qround String Ascii List Bool.
From Stdlib Require Import Sorted Permutation Lia Lra Psatz.
Import ListNotations.

Local Open Scope string_scope.
Local Open Scope list_scope.
Local Open Scope Z_scope.

(** ** Data model *)

Inductive Status := UP | DOWN.

Definition status_eqb (a b : Status) : bool :=
  match a, b with
  | UP, UP | DOWN, DOWN => true
  | _, _ => false
  end.

(** The dict built by [probe_url]. *)
Record ProbeResult := mkProbe {
  url : string;
  status : Status;
  code : Z;
  latency_ms : Z;
  error : string
}.

(** The dict returned by [load_state] and mutated by [main]. *)
Record State := mkState {
  last_alert_status : Status;
  consecutive_failures : Z;
  consecutive_successes : Z;
  last_summary_date : string
}.

(** The value [load_state] returns when the state file is absent or
    unreadable. *)
Definition default_state : State := mkState UP 0 0 "".

Definition set_last_alert_status (v : Status) (st : State) : State :=
  mkState v (consecutive_failures st) (consecutive_successes st)
          (last_summary_date st).

Definition set_last_summary_date (v : string) (st : State) : State :=
  mkState (last_alert_status st) (consecutive_failures st)
          (consecutive_successes st) v.

(** ** Alert logic of [main] (step 3 of the loop body) *)

(** One call of [send_telegram] made by the alert logic.  The message text
    of the DOWN alert is a function of the two probe results. *)
Inductive Alert :=
| DownAlert (fe_res be_res : ProbeResult)
| RecoveryNotice.

Definition is_down_alert (a : Alert) : bool :=
  match a with DownAlert _ _ => true | RecoveryNotice => false end.

Definition is_recovery (a : Alert) : bool :=
  match a with RecoveryNotice => true | DownAlert _ _ => false end.

Definition is_currently_up (fe_res be_res : ProbeResult) : bool :=
  status_eqb (status fe_res) UP && status_eqb (status be_res) UP.

(** [if not is_currently_up: ... else: ...] *)
Definition count_outcome (up : bool) (st : State) : State :=
  if negb up then
    mkState (last_alert_status st) (consecutive_failures st + 1) 0
            (last_summary_date st)
  else
    mkState (last_alert_status st) 0 (consecutive_successes st + 1)
            (last_summary_date st).

(** [# Falling edge: DOWN after 3 fails] *)
Definition falling_edge (fe_res be_res : ProbeResult) (st : State)
  : State * list Alert :=
  if (consecutive_failures st =? 3) && status_eqb (last_alert_status st) UP
  then (set_last_alert_status DOWN st, [DownAlert fe_res be_res])
  else (st, []).

(** [# Recovery: UP after 3 successes] *)
Definition recovery_edge (st : State) : State * list Alert :=
  if (consecutive_successes st =? 3) && status_eqb (last_alert_status st) DOWN
  then (set_last_alert_status UP st, [RecoveryNotice])
  else (st, []).

Definition alert_logic (fe_res be_res : ProbeResult) (st : State)
  : State * list Alert :=
  let st1 := count_outcome (is_currently_up fe_res be_res) st in
  let '(st2, sent1) := falling_edge fe_res be_res st1 in
  let '(st3, sent2) := recovery_edge st2 in
  (st3, sent1 ++ sent2).

(** A tick, as far as the alert logic is concerned, is the pair of probe
    results. *)
Definition Tick : Type := ProbeResult * ProbeResult.

Definition tick_up (t : Tick) : bool := is_currently_up (fst t) (snd t).

Definition alert_tick (t : Tick) (st : State) : State * list Alert :=
  alert_logic (fst t) (snd t) st.

(** The alert logic over successive iterations of the loop: the final state
    and, per tick, the alerts sent on it. *)
Fixpoint run_alerts (st : State) (ticks : list Tick)
  : State * list (list Alert) :=
  match ticks with
  | [] => (st, [])
  | t :: rest =>
      let '(st1, sent) := alert_tick t st in
      let '(st2, sents) := run_alerts st1 rest in
      (st2, sent :: sents)
  end.

Definition fires_down (sent : list Alert) : bool := existsb is_down_alert sent.
Definition fires_recovery (sent : list Alert) : bool := existsb is_recovery sent.



Definition final_state (st : State) (ticks : list Tick) : State :=
  fst (run_alerts st ticks).

(** Example ticks: a tick with both endpoints up (the backend probe answers
    401, which [probe_url] counts as up for the validation URL) and a tick
    with the frontend timing out. *)
Definition FE_URL : string := "https://localhost/".
Definition BE_URL : string := "https://localhost/api/auth/validate".

Definition tick_ok : Tick :=
  (mkProbe FE_URL UP 200 12 "",
   mkProbe BE_URL UP 401 9 "HTTP Error 401: Unauthorized").

Definition tick_fail : Tick :=
  (mkProbe FE_URL DOWN 0 10001 "<urlopen error timed out>",
   mkProbe BE_URL UP 401 9 "HTTP Error 401: Unauthorized").

(** ** [calculate_percentile] *)

(** [sorted(data)]: the stable ascending sort. *)
Fixpoint insert_sorted (x : Q) (l : list Q) : list Q :=
  match l with
  | [] => [x]
  | y :: l' => if Qle_bool x y then x :: l else y :: insert_sorted x l'
  end.

Fixpoint sorted (data : list Q) : list Q :=
  match data with
  | [] => []
  | x :: rest => insert_sorted x (sorted rest)
  end.

(** [int(x)] on a number: truncation towards zero. *)
Definition py_int (x : Q) : Z := Z.quot (Qnum x) (Z.pos (Qden x)).

(** [l[i]] on a list: negative indices count from the end, an index out of
    range raises [IndexError]. *)
Definition py_index {A : Type} (l : list A) (i : Z) : option A :=
  let n := Z.of_nat (length l) in
  if (0 <=? i) && (i <? n) then nth_error l (Z.to_nat i)
  else if (- n <=? i) && (i <? 0) then nth_error l (Z.to_nat (i + n))
  else None.

Definition calculate_percentile (data : list Q) (p : Q) : option Q :=
  match data with
  | [] => Some 0%Q
  | _ :: _ =>
      let data := sorted data in
      let len := Z.of_nat (length data) in
      let idx := (inject_Z (len - 1) * p / 100)%Q in
      let floor := py_int idx in
      let ceil := floor + 1 in
      if ceil <? len then
        match py_index data floor, py_index data ceil with
        | Some lo, Some hi => Some (lo + (hi - lo) * (idx - inject_Z floor))%Q
        | _, _ => None
        end
      else py_index data floor
  end.

(** The builtins [min] and [max] on a non-empty list: the first smallest,
    respectively first largest, element. *)
Definition minimum (x : Q) (rest : list Q) : Q :=
  fold_left (fun best y => if Qle_bool best y then best else y) rest x.

Definition maximum (x : Q) (rest : list Q) : Q :=
  fold_left (fun best y => if Qle_bool y best then best else y) rest x.


(** ** JSON values and the operations the monitor applies to them *)

(** What [json.loads] returns: [None], [bool], [int], [float], [str],
    [list], and [dict] with string keys (in insertion order, keys
    distinct). *)
#[local] Unset Elimination Schemes.
Inductive json :=
| JNull
| JBool (b : bool)
| JInt (z : Z)
| JFloat (q : Q)
| JStr (s : string)
| JList (items : list json)
| JDict (members : list (string * json)).
#[local] Set Elimination Schemes.

Fixpoint dict_get (k : string) (members : list (string * json)) : option json :=
  match members with
  | [] => None
  | (k', v) :: rest => if String.eqb k k' then Some v else dict_get k rest
  end.

(** [v[k]] with a string key: [KeyError] on a dict without the key,
    [TypeError] on anything that is not a dict. *)
Definition getitem (v : json) (k : string) : option json :=
  match v with
  | JDict members => dict_get k members
  | _ => None
  end.

(** [v[:n]]: defined on strings and lists, [TypeError] otherwise. *)
Definition slice_to (n : nat) (v : json) : option json :=
  match v with
  | JStr s => Some (JStr (substring 0 n s))
  | JList items => Some (JList (firstn n items))
  | _ => None
  end.

(** [v == s] and [v != s] against a string: never raise; a value that is
    not a string differs from every string. *)
Definition eq_str (v : json) (s : string) : bool :=
  match v with
  | JStr t => String.eqb t s
  | _ => false
  end.

Definition ne_str (v : json) (s : string) : bool := negb (eq_str v s).

(** [v >= s] against a string: lexicographic on strings, [TypeError] on a
    list (the only other type [slice_to] returns). *)
Definition ge_str (v : json) (s : string) : option bool :=
  match v with
  | JStr t => Some (String.leb s t)
  | _ => None
  end.

(** [s["resources"]["timestamp"][:10]] *)
Definition timestamp_prefix (s : json) : option json :=
  match getitem s "resources" with
  | None => None
  | Some r =>
      match getitem r "timestamp" with
      | None => None
      | Some t => slice_to 10 t
      end
  end.

(** ** Sample records *)

(** The dict built by [get_resource_metrics]. *)
Record Resources := mkResources {
  timestamp : string;
  cpu_percent : Q;
  mem_percent : Q;
  disk_percent : Q;
  load_avg : Q * Q * Q
}.

(** The dict [sample] built by [main]. *)
Record Sample := mkSample {
  frontend : ProbeResult;
  backend : ProbeResult;
  resources : Resources
}.

Definition status_str (s : Status) : string :=
  match s with UP => "UP" | DOWN => "DOWN" end.

Definition probe_json (r : ProbeResult) : json :=
  JDict [("url", JStr (url r));
         ("status", JStr (status_str (status r)));
         ("code", JInt (code r));
         ("latency_ms", JInt (latency_ms r));
         ("error", JStr (error r))].

Definition resources_json (m : Resources) : json :=
  JDict [("timestamp", JStr (timestamp m));
         ("cpu_percent", JFloat (cpu_percent m));
         ("mem_percent", JFloat (mem_percent m));
         ("disk_percent", JFloat (disk_percent m));
         ("load_avg", let '(a, b, c) := load_avg m in
                      JList [JFloat a; JFloat b; JFloat c])].

Definition sample_json (s : Sample) : json :=
  JDict [("frontend", probe_json (frontend s));
         ("backend", probe_json (backend s));
         ("resources", resources_json (resources s))].

Definition state_json (st : State) : json :=
  JDict [("last_alert_status", JStr (status_str (last_alert_status st)));
         ("consecutive_failures", JInt (consecutive_failures st));
         ("consecutive_successes", JInt (consecutive_successes st));
         ("last_summary_date", JStr (last_summary_date st))].

(** ** Files *)

Definition SAMPLES_FILE : string := "/var/lib/goals/monitor/samples.jsonl".
Definition STATE_FILE : string := "/var/lib/goals/monitor/state.json".
Definition TEMP_FILE : string := SAMPLES_FILE +:+ ".tmp".

Definition newline : ascii := "010"%char.
Definition nl : string := String newline "".

(** Iterating over a text file: the lines, each with its terminating
    newline (the last one possibly without).  Carriage returns are ordinary
    characters here. *)
Fixpoint file_lines (content : string) : list string :=
  match content with
  | EmptyString => []
  | String c rest =>
      if Ascii.eqb c newline then String c "" :: file_lines rest
      else match file_lines rest with
           | [] => [String c ""]
           | l :: ls => String c l :: ls
           end
  end.

(** The file system: the files that exist, with their contents. *)
Abbreviation FS := (gmap string string).

(** The writes a function makes, in order, each one a state of the file
    system that another process (or a restart after a crash) can see. *)
Inductive FsOp :=
| OpenTruncate (path : string)             (* open(path, "w") *)
| WriteData (path : string) (data : string) (* data reaches the file *)
| Replace (src dst : string).              (* os.replace(src, dst) *)

Definition apply_op (fs : FS) (op : FsOp) : FS :=
  match op with
  | OpenTruncate path => <[path := ""]> fs
  | WriteData path data => <[path := default "" (fs !! path) +:+ data]> fs
  | Replace src dst =>
      match fs !! src with
      | Some content => <[dst := content]> (delete src fs)
      | None => fs
      end
  end.

Definition run_ops (ops : list FsOp) (fs : FS) : FS := fold_left apply_op ops fs.

(** Every file-system state between the first and the last write. *)
Definition observable_states (ops : list FsOp) (fs : FS) : list FS :=
  map (fun k => run_ops (firstn k ops) fs) (seq 0 (S (length ops))).

(** ** Dates and the clock *)

(** A calendar date of the proleptic Gregorian calendar, as [datetime]
    has it. *)
Record Date := mkDate { year : Z; month : Z; day : Z }.

Definition is_leap (y : Z) : bool :=
  ((y mod 4 =? 0) && negb (y mod 100 =? 0)) || (y mod 400 =? 0).

Definition days_in_month (y m : Z) : Z :=
  if m =? 2 then (if is_leap y then 29 else 28)
  else if (m =? 4) || (m =? 6) || (m =? 9) || (m =? 11) then 30
  else 31.

Definition prev_day (d : Date) : Date :=
  if 1 <? day d then mkDate (year d) (month d) (day d - 1)
  else if 1 <? month d then
    mkDate (year d) (month d - 1) (days_in_month (year d) (month d - 1))
  else mkDate (year d - 1) 12 31.

Definition next_day (d : Date) : Date :=
  if day d <? days_in_month (year d) (month d) then
    mkDate (year d) (month d) (day d + 1)
  else if month d <? 12 then mkDate (year d) (month d + 1) 1
  else mkDate (year d + 1) 1 1.

(** [d - timedelta(days=k)] on the date part. *)
Definition minus_days (k : Z) (d : Date) : Date :=
  if 0 <=? k then Nat.iter (Z.to_nat k) prev_day d
  else Nat.iter (Z.to_nat (- k)) next_day d.

(** Chronological order of dates. *)
Definition date_compare (a b : Date) : comparison :=
  match year a ?= year b with
  | Eq => match month a ?= month b with
          | Eq => day a ?= day b
          | c => c
          end
  | c => c
  end.

Definition date_leb (a b : Date) : bool :=
  match date_compare a b with Gt => false | _ => true end.

Definition digit (n : Z) : ascii := ascii_of_nat (48 + Z.to_nat n).

(** Two and four decimal digits, zero padded. *)
Definition pad2 (n : Z) : string :=
  String (digit (n / 10)) (String (digit (n mod 10)) "").

Definition pad4 (n : Z) : string := pad2 (n / 100) +:+ pad2 (n mod 100).

(** [strftime("%Y-%m-%d")], for the years it writes with four digits. *)
Definition strftime_ymd (d : Date) : string :=
  pad4 (year d) +:+ "-" +:+ pad2 (month d) +:+ "-" +:+ pad2 (day d).


Definition valid_date (d : Date) : Prop :=
  1000 <= year d <= 9999 /\ 1 <= month d <= 12 /\ 1 <= day d <= 31.

(** What one iteration of the loop reads from [datetime.now(timezone.utc)]. *)
Record Clock := mkClock { today : Date; hour : Z; minute : Z }.

(** ** Sample store: append and prune *)

Section Store.
(** [json.loads] ([None] when it raises) and [json.dumps]. *)
Variable json_loads : string -> option json.
Variable json_dumps : json -> string.

(** [with open(SAMPLES_FILE, "a") as f: f.write(json.dumps(sample) + "\n")] *)
Definition append_ops (sample : json) : list FsOp :=
  [WriteData SAMPLES_FILE (json_dumps sample +:+ nl)].

Definition append_sample (sample : json) (fs : FS) : FS :=
  run_ops (append_ops sample) fs.

(** [save_state]: [open(STATE_FILE, "w")], then [json.dump]. *)
Definition save_state_ops (st : State) : list FsOp :=
  [OpenTruncate STATE_FILE; WriteData STATE_FILE (json_dumps (state_json st))].

Definition save_state (st : State) (fs : FS) : FS :=
  run_ops (save_state_ops st) fs.

(** The body of the loop of [prune_samples]: is the line written to the
    temporary file?  Any exception skips the line. *)
Definition keep_line (cutoff : string) (line : string) : bool :=
  match json_loads line with
  | None => false
  | Some s =>
      match timestamp_prefix s with
      | None => false
      | Some ts =>
          match ge_str ts cutoff with
          | Some b => b
          | None => false
          end
      end
  end.

Definition prune_ops (cutoff : string) (content : string) : list FsOp :=
  OpenTruncate TEMP_FILE
    :: map (WriteData TEMP_FILE)
           (List.filter (keep_line cutoff) (file_lines content))
    ++ [Replace TEMP_FILE SAMPLES_FILE].

(** [prune_samples]: when the samples file cannot be opened the exception
    is caught and nothing is written. *)
Definition prune_samples (now : Date) (RETENTION_DAYS : Z) (fs : FS) : FS :=
  let cutoff := strftime_ymd (minus_days RETENTION_DAYS now) in
  match fs !! SAMPLES_FILE with
  | None => fs
  | Some content => run_ops (prune_ops cutoff content) fs
  end.
End Store.

(** ** The daily summary *)

(** The local variables of [run_daily_summary] that the scan updates. *)
Record Totals := mkTotals {
  fe_latencies : list json;
  be_latencies : list json;
  mem_percents : list json;
  disk_percents : list json;
  total_samples : Z;
  fe_up_count : Z;
  be_up_count : Z;
  both_up_count : Z
}.

Definition no_totals : Totals := mkTotals [] [] [] [] 0 0 0 0.

Definition incr_total (a : Totals) : Totals :=
  mkTotals (fe_latencies a) (be_latencies a) (mem_percents a) (disk_percents a)
           (total_samples a + 1) (fe_up_count a) (be_up_count a)
           (both_up_count a).

Definition incr_fe_up (a : Totals) : Totals :=
  mkTotals (fe_latencies a) (be_latencies a) (mem_percents a) (disk_percents a)
           (total_samples a) (fe_up_count a + 1) (be_up_count a)
           (both_up_count a).

Definition incr_be_up (a : Totals) : Totals :=
  mkTotals (fe_latencies a) (be_latencies a) (mem_percents a) (disk_percents a)
           (total_samples a) (fe_up_count a) (be_up_count a + 1)
           (both_up_count a).

Definition incr_both_up (a : Totals) : Totals :=
  mkTotals (fe_latencies a) (be_latencies a) (mem_percents a) (disk_percents a)
           (total_samples a) (fe_up_count a) (be_up_count a)
           (both_up_count a + 1).

Definition append_fe_latency (v : json) (a : Totals) : Totals :=
  mkTotals (fe_latencies a ++ [v]) (be_latencies a) (mem_percents a)
           (disk_percents a) (total_samples a) (fe_up_count a)
           (be_up_count a) (both_up_count a).

Definition append_be_latency (v : json) (a : Totals) : Totals :=
  mkTotals (fe_latencies a) (be_latencies a ++ [v]) (mem_percents a)
           (disk_percents a) (total_samples a) (fe_up_count a)
           (be_up_count a) (both_up_count a).

Definition append_mem (v : json) (a : Totals) : Totals :=
  mkTotals (fe_latencies a) (be_latencies a) (mem_percents a ++ [v])
           (disk_percents a) (total_samples a) (fe_up_count a)
           (be_up_count a) (both_up_count a).

Definition append_disk (v : json) (a : Totals) : Totals :=
  mkTotals (fe_latencies a) (be_latencies a) (mem_percents a)
           (disk_percents a ++ [v]) (total_samples a) (fe_up_count a)
           (be_up_count a) (both_up_count a).

(** The body of the [try] in the scan loop runs statement by statement on
    the totals; it ends normally, by [continue], or by an exception.  The
    updates made before an exception stay. *)
Inductive Outcome (A : Type) :=
| Returned (a : A)
| Continued
| Raised.
Arguments Returned {A} a.
Arguments Continued {A}.
Arguments Raised {A}.

Definition Scan (A : Type) : Type := Totals -> Outcome A * Totals.

#[export] Instance scan_ret : MRet Scan := fun A a acc => (Returned a, acc).

#[export] Instance scan_bind : MBind Scan := fun A B f m acc =>
  match m acc with
  | (Returned a, acc') => f a acc'
  | (Continued, acc') => (Continued, acc')
  | (Raised, acc') => (Raised, acc')
  end.

(** An expression that may raise. *)
Definition eval {A : Type} (o : option A) : Scan A := fun acc =>
  match o with
  | Some a => (Returned a, acc)
  | None => (Raised, acc)
  end.

Definition continue {A : Type} : Scan A := fun acc => (Continued, acc).

Definition update (f : Totals -> Totals) : Scan unit := fun acc =>
  (Returned tt, f acc).

Definition when (b : bool) (body : Scan unit) : Scan unit :=
  if b then body else mret tt.

Section Summary.
Variable json_loads : string -> option json.

(** The statements inside [try:] for one line of the samples file. *)
Definition scan_body (yesterday : string) (line : string) : Scan unit :=
  s ← eval (json_loads line);
  ts ← eval (timestamp_prefix s);
  if ne_str ts yesterday then continue else
  _ ← update incr_total;
  fe ← eval (getitem s "frontend");
  fe_status ← eval (getitem fe "status");
  let fe_up := eq_str fe_status "UP" in
  be ← eval (getitem s "backend");
  be_status ← eval (getitem be "status");
  let be_up := eq_str be_status "UP" in
  _ ← when fe_up (
        _ ← update incr_fe_up;
        fe ← eval (getitem s "frontend");
        latency ← eval (getitem fe "latency_ms");
        update (append_fe_latency latency));
  _ ← when be_up (
        _ ← update incr_be_up;
        be ← eval (getitem s "backend");
        latency ← eval (getitem be "latency_ms");
        update (append_be_latency latency));
  _ ← when (fe_up && be_up) (update incr_both_up);
  r ← eval (getitem s "resources");
  mem ← eval (getitem r "mem_percent");
  _ ← update (append_mem mem);
  r ← eval (getitem s "resources");
  disk ← eval (getitem r "disk_percent");
  update (append_disk disk).

(** One iteration of [for line in f]: however the body ends, the loop
    goes on with the totals as they are. *)
Definition scan_line (yesterday : string) (acc : Totals) (line : string)
  : Totals :=
  snd (scan_body yesterday line acc).

Definition scan_lines (yesterday : string) (lines : list string) : Totals :=
  fold_left (scan_line yesterday) lines no_totals.

(** The read-for-summary scan: [if os.path.exists(SAMPLES_FILE): ...] *)
Definition scan_samples (yesterday : string) (fs : FS) : Totals :=
  match fs !! SAMPLES_FILE with
  | None => no_totals
  | Some content => scan_lines yesterday (file_lines content)
  end.
End Summary.

(** A JSON value used as a number ([bool] is a subtype of [int]); [None]
    for the values on which arithmetic raises [TypeError]. *)
Definition number (v : json) : option Q :=
  match v with
  | JInt z => Some (inject_Z z)
  | JFloat q => Some q
  | JBool b => Some (if b then 1%Q else 0%Q)
  | _ => None
  end.

Fixpoint numbers (data : list json) : option (list Q) :=
  match data with
  | [] => Some []
  | v :: rest =>
      match number v, numbers rest with
      | Some q, Some qs => Some (q :: qs)
      | _, _ => None
      end
  end.

(** What [fmt_stats] formats: ["N/A"], or the average, the maximum and the
    99th percentile (each then printed with one decimal). *)
Inductive Stats :=
| NoData
| StatsOf (avg max p99 : Q).

Definition fmt_stats (data : list json) : option Stats :=
  match numbers data with
  | None => None
  | Some [] => Some NoData
  | Some (x :: rest) =>
      match calculate_percentile (x :: rest) 99%Q with
      | None => None
      | Some p99 =>
          Some (StatsOf
                  (fold_left Qplus (x :: rest) 0%Q
                     / inject_Z (Z.of_nat (length (x :: rest))))%Q
                  (maximum x rest) p99)
      end
  end.

(** The content of the daily report. *)
Record Report := mkReport {
  report_date : string;
  uptime_frontend : Q;
  uptime_backend : Q;
  uptime_combined : Q;
  frontend_latency : Stats;
  backend_latency : Stats;
  mem_stats : Stats;
  disk_stats : Stats
}.

(** One call of [send_telegram]. *)
Inductive Message :=
| AlertMessage (a : Alert)
| SummaryMessage (r : Report).

(** What the loop works on: the files, the [state] dict, and the messages
    handed to [send_telegram] so far. *)
Record World := mkWorld {
  files : FS;
  state : State;
  sent : list Message
}.

Definition percent_of (count total : Z) : Q :=
  (100 * inject_Z count / inject_Z total)%Q.

Section Daemon.
Variable json_loads : string -> option json.
Variable json_dumps : json -> string.
Variable RETENTION_DAYS : Z.

(** [run_daily_summary(state)]; [None] when an exception leaves the
    function (nothing has been changed by then). *)
Definition run_daily_summary (now : Date) (w : World) : option World :=
  let yesterday := strftime_ymd (minus_days 1 now) in
  if String.eqb (last_summary_date (state w)) yesterday then Some w
  else
    let t := scan_samples json_loads yesterday (files w) in
    if total_samples t =? 0 then
      Some (mkWorld (files w) (set_last_summary_date yesterday (state w))
                    (sent w))
    else
      match fmt_stats (fe_latencies t), fmt_stats (be_latencies t),
            fmt_stats (mem_percents t), fmt_stats (disk_percents t) with
      | Some fe, Some be, Some mem, Some disk =>
          let report :=
            mkReport yesterday
                     (percent_of (fe_up_count t) (total_samples t))
                     (percent_of (be_up_count t) (total_samples t))
                     (percent_of (both_up_count t) (total_samples t))
                     fe be mem disk in
          Some (mkWorld (prune_samples json_loads now RETENTION_DAYS (files w))
                        (set_last_summary_date yesterday (state w))
                        (sent w ++ [SummaryMessage report]))
      | _, _, _, _ => None
      end.

(** One iteration of [while True] in [main], given what the probes, the
    resource reader and the clock return.  An exception in the summary
    skips [save_state]; the [state] dict keeps the alert logic's updates. *)
Definition main_tick (now : Clock) (fe_res be_res : ProbeResult)
    (res_metrics : Resources) (w : World) : World :=
  let sample := sample_json (mkSample fe_res be_res res_metrics) in
  let fs1 := append_sample json_dumps sample (files w) in
  let '(st1, alerts) := alert_logic fe_res be_res (state w) in
  let w1 := mkWorld fs1 st1 (sent w ++ map AlertMessage alerts) in
  let summarized :=
    if (hour now =? 0) && (5 <=? minute now)
    then run_daily_summary (today now) w1
    else Some w1 in
  match summarized with
  | Some w2 =>
      mkWorld (save_state json_dumps (state w2) (files w2)) (state w2) (sent w2)
  | None => w1
  end.
End Daemon.

(** ** A JSON codec for the examples

    [Json.loads] and [Json.dumps] read and write the part of JSON that the
    monitor's own files use, laid out as [json.dumps] lays it out (["key":
    value] pairs separated by [", "]).  Where [Json.loads] returns a value,
    [json.loads] returns the same one; it returns [None] on malformed text
    and also on the constructs left out ([\u] escapes, [NaN], [Infinity]).
    A float is read as the exact decimal it is written as. *)
Module Json.

Definition dquote : ascii := "034"%char.
Definition backslash : ascii := "092"%char.

Definition is_ws (c : ascii) : bool :=
  Ascii.eqb c " " || Ascii.eqb c "009" || Ascii.eqb c "010" || Ascii.eqb c "013".

Fixpoint skip_ws (s : string) : string :=
  match s with
  | String c rest => if is_ws c then skip_ws rest else s
  | EmptyString => s
  end.

Definition is_digit (c : ascii) : bool :=
  (48 <=? nat_of_ascii c)%nat && (nat_of_ascii c <=? 57)%nat.

Definition digit_value (c : ascii) : Z := Z.of_nat (nat_of_ascii c) - 48.

(** A run of digits: its value, its length, and what follows. *)
Fixpoint read_digits (s : string) (acc : Z) (count : nat)
  : Z * nat * string :=
  match s with
  | String c rest =>
      if is_digit c then read_digits rest (acc * 10 + digit_value c) (S count)
      else (acc, count, s)
  | EmptyString => (acc, count, s)
  end.

Definition starts_with_digit (s : string) : bool :=
  match s with
  | String c _ => is_digit c
  | EmptyString => false
  end.

Definition pow10 (k : nat) : positive := Pos.pow 10 (Pos.of_nat k).

(** An optional minus sign, an integer part without leading zeros, an
    optional fraction (a dot and digits) and an optional exponent: an
    [int] when there is neither fraction nor exponent, a [float]
    otherwise. *)
Definition parse_number (s : string) : option (json * string) :=
  let '(negative, s1) :=
    match s with
    | String c rest => if Ascii.eqb c "-" then (true, rest) else (false, s)
    | EmptyString => (false, s)
    end in
  let sign (z : Z) := if negative then - z else z in
  if negb (starts_with_digit s1) then None else
  let '(int_part, int_len, s2) := read_digits s1 0 0 in
  let leading_zero :=
    match s1 with
    | String c _ => Ascii.eqb c "0" && (1 <? int_len)%nat
    | EmptyString => false
    end in
  if leading_zero then None else
  let '(mantissa, places, s3, has_frac) :=
    match s2 with
    | String c rest =>
        if Ascii.eqb c "." && starts_with_digit rest then
          let '(m, k, s3) := read_digits rest int_part 0 in (m, k, s3, true)
        else (int_part, 0%nat, s2, false)
    | EmptyString => (int_part, 0%nat, s2, false)
    end in
  let exponent :=
    match s3 with
    | String c rest =>
        if Ascii.eqb c "e" || Ascii.eqb c "E" then
          let '(exp_negative, s4) :=
            match rest with
            | String c' rest' =>
                if Ascii.eqb c' "-" then (true, rest')
                else if Ascii.eqb c' "+" then (false, rest')
                else (false, rest)
            | EmptyString => (false, rest)
            end in
          if starts_with_digit s4 then
            let '(e, _, s5) := read_digits s4 0 0 in
            Some (if exp_negative then - e else e, s5)
          else None
        else None
    | EmptyString => None
    end in
  match exponent with
  | Some (e, s5) =>
      Some (JFloat (inject_Z (sign mantissa) / inject_Z (Z.pos (pow10 places))
                    * (if 0 <=? e then inject_Z (10 ^ e)
                       else / inject_Z (10 ^ (- e))))%Q, s5)
  | None =>
      if has_frac then Some (JFloat (sign mantissa # pow10 places), s3)
      else Some (JInt (sign int_part), s3)
  end.

(** The characters of a string up to the closing quote.  A control
    character is an error; of the escapes, the two-character ones are
    read. *)
Fixpoint parse_string (s : string) : option (string * string) :=
  match s with
  | EmptyString => None
  | String c rest =>
      if Ascii.eqb c dquote then Some (EmptyString, rest)
      else if (nat_of_ascii c <? 32)%nat then None
      else if Ascii.eqb c backslash then
        match rest with
        | String e rest' =>
            let unescaped :=
              if Ascii.eqb e dquote then Some dquote
              else if Ascii.eqb e backslash then Some backslash
              else if Ascii.eqb e "/" then Some "/"%char
              else if Ascii.eqb e "b" then Some "008"%char
              else if Ascii.eqb e "f" then Some "012"%char
              else if Ascii.eqb e "n" then Some "010"%char
              else if Ascii.eqb e "r" then Some "013"%char
              else if Ascii.eqb e "t" then Some "009"%char
              else None in
            match unescaped, parse_string rest' with
            | Some u, Some (str, after) => Some (String u str, after)
            | _, _ => None
            end
        | EmptyString => None
        end
      else
        match parse_string rest with
        | Some (str, after) => Some (String c str, after)
        | None => None
        end
  end.

(** Assignment to a dict key: a key already present keeps its place. *)
Fixpoint dict_set (k : string) (v : json) (members : list (string * json))
  : list (string * json) :=
  match members with
  | [] => [(k, v)]
  | (k', v') :: rest =>
      if String.eqb k k' then (k, v) :: rest
      else (k', v') :: dict_set k v rest
  end.

Definition literal (word : string) (v : json) (s : string)
  : option (json * string) :=
  if String.prefix word s
  then Some (v, substring (String.length word)
                          (String.length s - String.length word) s)
  else None.

(** One JSON value at the start of [s] (no leading whitespace), and the
    rest of the text.  [fuel] bounds the number of nested calls. *)
Fixpoint parse_value (fuel : nat) (s : string) : option (json * string) :=
  match fuel with
  | O => None
  | S fuel' =>
      match s with
      | EmptyString => None
      | String c rest =>
          if Ascii.eqb c "{" then
            match skip_ws rest with
            | String c' rest' =>
                if Ascii.eqb c' "}" then Some (JDict [], rest')
                else parse_members fuel' (String c' rest') []
            | EmptyString => None
            end
          else if Ascii.eqb c "[" then
            match skip_ws rest with
            | String c' rest' =>
                if Ascii.eqb c' "]" then Some (JList [], rest')
                else parse_items fuel' (String c' rest') []
            | EmptyString => None
            end
          else if Ascii.eqb c dquote then
            match parse_string rest with
            | Some (str, after) => Some (JStr str, after)
            | None => None
            end
          else if Ascii.eqb c "n" then literal "null" JNull s
          else if Ascii.eqb c "t" then literal "true" (JBool true) s
          else if Ascii.eqb c "f" then literal "false" (JBool false) s
          else parse_number s
      end
  end

(** The members of an object from a key on, up to the closing brace. *)
with parse_members (fuel : nat) (s : string) (acc : list (string * json))
  : option (json * string) :=
  match fuel with
  | O => None
  | S fuel' =>
      match s with
      | String c rest =>
          if negb (Ascii.eqb c dquote) then None else
          match parse_string rest with
          | None => None
          | Some (key, after_key) =>
              match skip_ws after_key with
              | String colon after_colon =>
                  if negb (Ascii.eqb colon ":") then None else
                  match parse_value fuel' (skip_ws after_colon) with
                  | None => None
                  | Some (v, after_value) =>
                      let acc' := dict_set key v acc in
                      match skip_ws after_value with
                      | String d after =>
                          if Ascii.eqb d "}" then Some (JDict acc', after)
                          else if Ascii.eqb d ","
                          then parse_members fuel' (skip_ws after) acc'
                          else None
                      | EmptyString => None
                      end
                  end
              | EmptyString => None
              end
          end
      | EmptyString => None
      end
  end

(** The items of an array from an item on, up to the closing bracket. *)
with parse_items (fuel : nat) (s : string) (acc : list json)
  : option (json * string) :=
  match fuel with
  | O => None
  | S fuel' =>
      match parse_value fuel' s with
      | None => None
      | Some (v, after_value) =>
          match skip_ws after_value with
          | String d after =>
              if Ascii.eqb d "]" then Some (JList (acc ++ [v]), after)
              else if Ascii.eqb d ","
              then parse_items fuel' (skip_ws after) (acc ++ [v])
              else None
          | EmptyString => None
          end
      end
  end.

(** [json.loads]: one value, with whitespace around it and nothing else. *)
Definition loads (s : string) : option json :=
  match parse_value (S (String.length s)) (skip_ws s) with
  | Some (v, rest) =>
      match skip_ws rest with
      | EmptyString => Some v
      | String _ _ => None
      end
  | None => None
  end.
(** *** Printing *)

Fixpoint show_digits (fuel : nat) (n : Z) (acc : string) : string :=
  match fuel with
  | O => acc
  | S fuel' =>
      let acc' := String (digit (n mod 10)) acc in
      if n <? 10 then acc' else show_digits fuel' (n / 10) acc'
  end.

(** The decimal digits of [n >= 0]. *)
Definition show_natural (n : Z) : string :=
  show_digits (S (Z.to_nat (Z.log2 n))) n EmptyString.

Definition show_int (z : Z) : string :=
  if z <? 0 then String "-" (show_natural (- z)) else show_natural z.

(** [k] digits of the fraction [r/d], where [0 <= r < d]. *)
Fixpoint show_fraction (k : nat) (r d : Z) : string :=
  match k with
  | O => EmptyString
  | S k' => String (digit (r * 10 / d)) (show_fraction k' (r * 10 mod d) d)
  end.

(** The number of decimal places of a denominator [10^k] with [k >= 1];
    17 places for any other denominator. *)
Definition places_of (d : positive) : nat :=
  let k := Nat.pred (String.length (show_natural (Z.pos d))) in
  if (Pos.eqb (pow10 k) d && (1 <=? k)%nat)%bool then k else 17%nat.

Definition show_float (q : Q) : string :=
  let n := Qnum q in
  let d := Z.pos (Qden q) in
  (if n <? 0 then "-" else EmptyString)
    +:+ show_natural (Z.abs n / d) +:+ "."
    +:+ show_fraction (places_of (Qden q)) (Z.abs n mod d) d.

Definition hex_digit (n : nat) : ascii :=
  if (n <? 10)%nat then ascii_of_nat (48 + n) else ascii_of_nat (87 + n).

(** A character inside a string literal, as [json.dumps] escapes it. *)
Definition show_char (c : ascii) : string :=
  let n := nat_of_ascii c in
  if Ascii.eqb c dquote then String backslash (String dquote EmptyString)
  else if Ascii.eqb c backslash then String backslash (String backslash EmptyString)
  else if Ascii.eqb c "010" then String backslash "n"
  else if Ascii.eqb c "013" then String backslash "r"
  else if Ascii.eqb c "009" then String backslash "t"
  else if Ascii.eqb c "008" then String backslash "b"
  else if Ascii.eqb c "012" then String backslash "f"
  else if ((n <? 32) || (126 <? n))%nat then
    String backslash
      (String "u" (String "0" (String "0"
         (String (hex_digit (n / 16)) (String (hex_digit (n mod 16)) EmptyString)))))
  else String c EmptyString.

Fixpoint show_chars (s : string) : string :=
  match s with
  | EmptyString => EmptyString
  | String c rest => show_char c +:+ show_chars rest
  end.

Definition show_string (s : string) : string :=
  String dquote (show_chars s) +:+ String dquote EmptyString.

Fixpoint join (sep : string) (parts : list string) : string :=
  match parts with
  | [] => EmptyString
  | [x] => x
  | x :: rest => x +:+ sep +:+ join sep rest
  end.

(** [json.dumps] with its default separators. *)
Fixpoint dumps (v : json) : string :=
  match v with
  | JNull => "null"
  | JBool true => "true"
  | JBool false => "false"
  | JInt z => show_int z
  | JFloat q => show_float q
  | JStr s => show_string s
  | JList items => "[" +:+ join ", " (map dumps items) +:+ "]"
  | JDict members =>
      "{" +:+ join ", " (map (fun '(k, x) => show_string k +:+ ": " +:+ dumps x)
                             members) +:+ "}"
  end.
End Json.

(** ** Vocabulary for the statements about the sample store *)



Definition concat_lines (lines : list string) : string :=
  fold_right String.append EmptyString lines.


(** The line of the samples file that stores a sample. *)
Definition sample_line (json_dumps : json -> string) (r : Sample) : string :=
  json_dumps (sample_json r) +:+ nl.


(** A line is related to a date when it decodes to a value whose
    [resources.timestamp] starts with that date.  Lines that do not decode,
    or have no such timestamp, are related to no date. *)
Definition related (json_loads : string -> option json) (date line : string)
  : bool :=
  match json_loads line with
  | None => false
  | Some s =>
      match timestamp_prefix s with
      | None => false
      | Some ts => eq_str ts date
      end
  end.




(** [load_state]: the decoded state file, or the default dict when the file
    is absent or does not decode. *)
Definition load_state (json_loads : string -> option json) (fs : FS) : json :=
  match fs !! STATE_FILE with
  | Some content =>
      match json_loads content with
      | Some v => v
      | None => state_json default_state
      end
  | None => state_json default_state
  end.

(** ** Example records *)

Definition example_sample (ts : string) (fe be : Status) : Sample :=
  mkSample
    (mkProbe FE_URL fe (if status_eqb fe UP then 200 else 503) 12
             (if status_eqb fe UP then "" else "HTTP Error 503: Service Unavailable"))
    (mkProbe BE_URL be (if status_eqb be UP then 401 else 502) 9
             (if status_eqb be UP then "HTTP Error 401: Unauthorized"
              else "HTTP Error 502: Bad Gateway"))
    (mkResources ts (0 # 10) (4137 # 100) (625 # 10)
                 ((5 # 100)%Q, (1 # 10)%Q, (12 # 100)%Q)).

Definition example_line (ts : string) (fe be : Status) : string :=
  sample_line Json.dumps (example_sample ts fe be).

(** A samples file with records of three days. *)
Definition example_store : FS :=
  {[ SAMPLES_FILE :=
       concat_lines
         [example_line "2024-01-05T10:00:00.000001+00:00" UP UP;
          example_line "2024-02-09T23:59:00.250000+00:00" DOWN UP;
          example_line "2024-03-09T00:00:30.500000+00:00" UP UP] ]}.

(** The totals of two stretches of a file, one after the other. *)
Definition totals_app (a b : Totals) : Totals :=
  mkTotals (fe_latencies a ++ fe_latencies b)
           (be_latencies a ++ be_latencies b)
           (mem_percents a ++ mem_percents b)
           (disk_percents a ++ disk_percents b)
           (total_samples a + total_samples b)
           (fe_up_count a + fe_up_count b)
           (be_up_count a + be_up_count b)
           (both_up_count a + both_up_count b).







(** The file an operation writes to. *)
Definition op_target (op : FsOp) : string :=
  match op with
  | OpenTruncate path => path
  | WriteData path _ => path
  | Replace _ dst => dst
  end.

Definition is_replace (op : FsOp) : bool :=
  match op with
  | Replace _ _ => true
  | _ => false
  end.

(** A line that decodes, has the date searched for and both probe
    results, but no [mem_percent]. *)
Definition example_line_without_mem : string :=
  Json.dumps
    (JDict [("frontend", probe_json (mkProbe FE_URL UP 200 12 ""));
            ("backend", probe_json (mkProbe BE_URL DOWN 502 9
                                            "HTTP Error 502: Bad Gateway"));
            ("resources",
             JDict [("timestamp", JStr "2024-03-09T00:00:30.500000+00:00")])])
  +:+ nl.

(** A state file as a tick left it, and the state the next tick saves. *)
Definition example_old_state : State := mkState UP 2 0 "2024-03-09".
Definition example_new_state : State := mkState DOWN 3 0 "2024-03-09".

Definition example_state_store : FS :=
  {[ STATE_FILE := Json.dumps (state_json example_old_state) ]}.

(** ** Vocabulary for runs of the alert logic *)

(** The number of leading elements equal to [b], and the length of the
    streak of [b] that a list of outcomes ends with. *)
Fixpoint leading (b : bool) (outs : list bool) : nat :=
  match outs with
  | [] => 0
  | x :: rest => if Bool.eqb x b then S (leading b rest) else 0
  end.

Definition streak (b : bool) (outs : list bool) : nat := leading b (rev outs).

(** All the alerts of a run, in the order they are sent. *)
Definition alerts_of (st : State) (ticks : list Tick) : list Alert :=
  List.concat (snd (run_alerts st ticks)).

(** DOWN alerts and recovery notices taking turns, starting with a DOWN
    alert when [expect_down] holds. *)
Fixpoint alternates (expect_down : bool) (alerts : list Alert) : bool :=
  match alerts with
  | [] => true
  | a :: rest =>
      Bool.eqb (is_down_alert a) expect_down && alternates (negb expect_down) rest
  end.

(** ** Vocabulary for the statements about the summary *)


(** A record of 2024-03-09 whose frontend latency is a string, and a store
    that holds it. *)
Definition example_line_bad_latency : string :=
  Json.dumps
    (JDict [("frontend",
             JDict [("url", JStr FE_URL); ("status", JStr "UP");
                    ("code", JInt 200); ("latency_ms", JStr "slow");
                    ("error", JStr EmptyString)]);
            ("backend", probe_json (mkProbe BE_URL UP 401 9
                                            "HTTP Error 401: Unauthorized"));
            ("resources",
             resources_json
               (mkResources "2024-03-09T12:00:00.000001+00:00" (0 # 10)
                            (4137 # 100) (625 # 10)
                            ((5 # 100)%Q, (1 # 10)%Q, (12 # 100)%Q)))])
  +:+ nl.

Definition example_bad_store : FS :=
  {[ SAMPLES_FILE := example_line_bad_latency ]}.

(** The resources and the clock of a tick at 00:05 UTC on 2024-03-10. *)
Definition example_resources : Resources :=
  mkResources "2024-03-10T00:05:30.000001+00:00" (0 # 10) (4137 # 100)
              (625 # 10) ((5 # 100)%Q, (1 # 10)%Q, (12 # 100)%Q).

Definition example_clock : Clock := mkClock (mkDate 2024 3 10) 0 5.

(** ** The shape of the lines of a text file *)



(** ** The loop over several ticks *)






(** ** Vocabulary for the statements about percentiles *)

(** How many elements of a list are at most [a]. *)
Definition count_le (a : Q) (l : list Q) : nat :=
  length (List.filter (fun x => Qle_bool x a) l).


(** ** [probe_url] *)

(** What [urllib.request.urlopen] does with the request: it returns a
    response with a status code, it raises [urllib.error.HTTPError], or it
    raises another exception; [msg] is [str(e)]. *)
Inductive Fetch :=
| Responded (code : Z)
| HTTPError (code : Z) (msg : string)
| OtherError (msg : string).

(** [s.startswith(sub)] and [sub in s] on strings. *)
Fixpoint startswith (sub s : string) : bool :=
  match sub, s with
  | EmptyString, _ => true
  | String a sub', String b s' => Ascii.eqb a b && startswith sub' s'
  | String _ _, EmptyString => false
  end.

Fixpoint contains (sub s : string) : bool :=
  startswith sub s
  || match s with
     | EmptyString => false
     | String _ s' => contains sub s'
     end.

(** [probe_url(url)]; [start] and [finish] are the two readings of
    [time.time()], in seconds. *)
Definition probe_url (address : string) (start finish : Q) (r : Fetch)
  : ProbeResult :=
  let result :=
    match r with
    | Responded c =>
        mkProbe address (if (c =? 200) || (c =? 304) then UP else DOWN) c 0 ""
    | HTTPError c msg =>
        mkProbe address
                (if contains "auth/validate" address && (c =? 401)
                 then UP else DOWN)
                c 0 msg
    | OtherError msg => mkProbe address DOWN 0 0 msg
    end in
  mkProbe (url result) (status result) (code result)
          (py_int ((finish - start) * 1000)%Q) (error result).







(** * Theorems *)

(** ** The alert state machine *)

Ltac unfold_alert :=
  unfold alert_tick, alert_logic, falling_edge, recovery_edge, count_outcome,
    set_last_alert_status, fires_down, fires_recovery in *;
  cbn [negb fst snd last_alert_status consecutive_failures
       consecutive_successes last_summary_date] in *.

Ltac alert_cases :=
  cbn;
  repeat (match goal with
          | |- context [Z.eqb ?a ?b] => destruct (Z.eqb_spec a b)
          end; cbn).


Section AlertTick.
Variables (fe_res be_res : ProbeResult) (st : State).

Let st' := fst (alert_logic fe_res be_res st).
Let sent := snd (alert_logic fe_res be_res st).

Ltac alert_start :=
  subst st' sent; unfold_alert; destruct st as [s cf cs d]; destruct s;
  destruct (is_currently_up fe_res be_res).

Lemma alert_logic_failures :
  consecutive_failures st' =
    if is_currently_up fe_res be_res then 0 else consecutive_failures st + 1.
Proof.
  alert_start; alert_cases; reflexivity.
Qed.

Lemma alert_logic_successes :
  consecutive_successes st' =
    if is_currently_up fe_res be_res then consecutive_successes st + 1 else 0.
Proof.
  alert_start; alert_cases; reflexivity.
Qed.

Lemma alert_logic_summary_date :
  last_summary_date st' = last_summary_date st.
Proof.
  alert_start; alert_cases; reflexivity.
Qed.

Lemma fires_down_iff :
  fires_down sent = true <->
  consecutive_failures st' = 3 /\ last_alert_status st = UP.
Proof.
  alert_start; alert_cases;
    split; try intros [? ?]; try split; try congruence; try lia.
Qed.


Lemma fires_recovery_iff :
  fires_recovery sent = true <->
  consecutive_successes st' = 3 /\ last_alert_status st = DOWN.
Proof.
  alert_start; alert_cases;
    split; try intros [? ?]; try split; try congruence; try lia.
Qed.



Lemma not_both_alerts :
  fires_down sent = true -> fires_recovery sent = true -> False.
Proof.
  alert_start; alert_cases;
    intros; try congruence; try lia.
Qed.
End AlertTick.

Lemma alert_tick_fail (t : Tick) (st : State) :
  tick_up t = false ->
  alert_tick t st =
    if (consecutive_failures st + 1 =? 3) && status_eqb (last_alert_status st) UP
    then (mkState DOWN (consecutive_failures st + 1) 0 (last_summary_date st),
          [DownAlert (fst t) (snd t)])
    else (mkState (last_alert_status st) (consecutive_failures st + 1) 0
                  (last_summary_date st), []).
Proof.
  unfold tick_up. intros Hup. unfold_alert. rewrite Hup.
  destruct st as [[] cf cs d]; alert_cases; reflexivity.
Qed.

Lemma alert_tick_success (t : Tick) (st : State) :
  tick_up t = true ->
  alert_tick t st =
    if (consecutive_successes st + 1 =? 3)
       && status_eqb (last_alert_status st) DOWN
    then (mkState UP 0 (consecutive_successes st + 1) (last_summary_date st),
          [RecoveryNotice])
    else (mkState (last_alert_status st) 0 (consecutive_successes st + 1)
                  (last_summary_date st), []).
Proof.
  unfold tick_up. intros Hup. unfold_alert. rewrite Hup.
  destruct st as [[] cf cs d]; alert_cases; reflexivity.
Qed.

Lemma run_alerts_cons (t : Tick) (rest : list Tick) (st : State) :
  run_alerts st (t :: rest) =
    (fst (run_alerts (fst (alert_tick t st)) rest),
     snd (alert_tick t st) :: snd (run_alerts (fst (alert_tick t st)) rest)).
Proof.
  cbn [run_alerts]. destruct (alert_tick t st) as [st1 sent].
  cbn [fst snd]. destruct (run_alerts st1 rest). reflexivity.
Qed.

Lemma final_state_cons t rest st :
  final_state st (t :: rest) = final_state (fst (alert_tick t st)) rest.
Proof. unfold final_state. rewrite run_alerts_cons. reflexivity. Qed.









(** The outcomes of a list of ticks determine the flags: two runs over
    ticks with the same outcomes send their alerts on the same ticks. *)
Lemma tick_up_determines (t : Tick) (st : State) :
  alert_tick t st =
    if tick_up t then
      (if (consecutive_successes st + 1 =? 3)
          && status_eqb (last_alert_status st) DOWN
       then (mkState UP 0 (consecutive_successes st + 1) (last_summary_date st),
             [RecoveryNotice])
       else (mkState (last_alert_status st) 0 (consecutive_successes st + 1)
                     (last_summary_date st), []))
    else
      (if (consecutive_failures st + 1 =? 3)
          && status_eqb (last_alert_status st) UP
       then (mkState DOWN (consecutive_failures st + 1) 0 (last_summary_date st),
             [DownAlert (fst t) (snd t)])
       else (mkState (last_alert_status st) (consecutive_failures st + 1) 0
                     (last_summary_date st), [])).
Proof.
  destruct (tick_up t) eqn:Hup;
    [apply alert_tick_success | apply alert_tick_fail]; exact Hup.
Qed.






(** C8.  A tick applied to a state whose counters are non-negative leaves
    at most one of [consecutive_failures] and [consecutive_successes]
    nonzero (and both non-negative). *)
Theorem C8_counters_never_both_nonzero :
  forall (fe_res be_res : ProbeResult) (st : State),
    0 <= consecutive_failures st ->
    0 <= consecutive_successes st ->
    let st' := fst (alert_logic fe_res be_res st) in
    ~ (consecutive_failures st' <> 0 /\ consecutive_successes st' <> 0)
    /\ 0 <= consecutive_failures st'
    /\ 0 <= consecutive_successes st'.
Proof.
  intros fe_res be_res st Hf Hs st'. subst st'.
  rewrite alert_logic_failures, alert_logic_successes.
  destruct (is_currently_up fe_res be_res); repeat split; lia.
Qed.

Lemma C8_witness :
  let st' := fst (alert_logic (fst tick_fail) (snd tick_fail)
                              (mkState UP 0 5 "")) in
  ~ (consecutive_failures st' <> 0 /\ consecutive_successes st' <> 0)
  /\ 0 <= consecutive_failures st'
  /\ 0 <= consecutive_successes st'.
Proof.
  apply (C8_counters_never_both_nonzero (fst tick_fail) (snd tick_fail)
           (mkState UP 0 5 "")); cbn; lia.
Defined.

(** ** The percentile aggregator *)

Section Sorting.
Local Open Scope Q_scope.

Lemma insert_sorted_perm (x : Q) (l : list Q) :
  Permutation (insert_sorted x l) (x :: l).
Proof.
  induction l as [|y l IH]; cbn [insert_sorted]; [reflexivity|].
  destruct (Qle_bool x y); [reflexivity|].
  rewrite IH. apply perm_swap.
Qed.

Lemma sorted_perm (data : list Q) : Permutation (sorted data) data.
Proof.
  induction data as [|x rest IH]; cbn [sorted]; [reflexivity|].
  rewrite insert_sorted_perm, IH. reflexivity.
Qed.

Lemma sorted_length (data : list Q) : length (sorted data) = length data.
Proof. apply Permutation_length, sorted_perm. Qed.

Lemma insert_sorted_ascending (x : Q) (l : list Q) :
  StronglySorted Qle l -> StronglySorted Qle (insert_sorted x l).
Proof.
  induction 1 as [|y l Hl IH Hy]; cbn [insert_sorted].
  - repeat constructor.
  - destruct (Qle_bool x y) eqn:Hxy.
    + apply Qle_bool_iff in Hxy. constructor; [constructor; assumption|].
      constructor; [exact Hxy|].
      eapply Forall_impl; [|exact Hy]. intros z Hz. cbn beta.
      eapply Qle_trans; eassumption.
    + constructor; [exact IH|].
      assert (Hyx : y <= x).
      { apply Qlt_le_weak, Qnot_le_lt. intros Hle.
        apply Qle_bool_iff in Hle. congruence. }
      rewrite Forall_forall. intros z Hz.
      apply (Permutation_in _ (insert_sorted_perm x l)) in Hz.
      destruct Hz as [<- | Hz]; [exact Hyx|].
      rewrite Forall_forall in Hy. apply Hy, Hz.
Qed.

Lemma sorted_ascending (data : list Q) : StronglySorted Qle (sorted data).
Proof.
  induction data as [|x rest IH]; cbn [sorted]; [constructor|].
  apply insert_sorted_ascending, IH.
Qed.

(** In an ascending list, elements at increasing positions increase. *)
Lemma ascending_nth (s : list Q) : StronglySorted Qle s ->
  forall (i j : nat) (a b : Q),
    (i <= j)%nat -> nth_error s i = Some a -> nth_error s j = Some b ->
    a <= b.
Proof.
  induction 1 as [|y l Hl IH Hy]; intros i j a b Hij Ha Hb.
  - destruct i; discriminate.
  - destruct i as [|i], j as [|j]; cbn [nth_error] in Ha, Hb.
    + injection Ha as <-. injection Hb as <-. apply Qle_refl.
    + injection Ha as <-. rewrite Forall_forall in Hy.
      apply Hy. eapply nth_error_In, Hb.
    + lia.
    + eapply IH; [|eassumption|eassumption]. lia.
Qed.

Lemma minimum_spec (rest : list Q) : forall x,
  In (minimum x rest) (x :: rest)
  /\ forall y, In y (x :: rest) -> minimum x rest <= y.
Proof.
  unfold minimum.
  induction rest as [|z rest IH]; intros x; cbn [fold_left].
  - split; [left; reflexivity|]. intros y [<- | []]. apply Qle_refl.
  - destruct (Qle_bool x z) eqn:Hxz.
    + apply Qle_bool_iff in Hxz. destruct (IH x) as [Hin Hle]. split.
      * destruct Hin as [Hin | Hin]; [left; exact Hin | right; right; exact Hin].
      * intros y [<- | [<- | Hy]].
        -- apply Hle. left; reflexivity.
        -- eapply Qle_trans; [apply Hle; left; reflexivity | exact Hxz].
        -- apply Hle. right; exact Hy.
    + assert (Hzx : z <= x).
      { apply Qlt_le_weak, Qnot_le_lt. intros Hle.
        apply Qle_bool_iff in Hle. congruence. }
      destruct (IH z) as [Hin Hle]. split.
      * right. exact Hin.
      * intros y [<- | [<- | Hy]].
        -- eapply Qle_trans; [apply Hle; left; reflexivity | exact Hzx].
        -- apply Hle. left; reflexivity.
        -- apply Hle. right; exact Hy.
Qed.

Lemma maximum_spec (rest : list Q) : forall x,
  In (maximum x rest) (x :: rest)
  /\ forall y, In y (x :: rest) -> y <= maximum x rest.
Proof.
  unfold maximum.
  induction rest as [|z rest IH]; intros x; cbn [fold_left].
  - split; [left; reflexivity|]. intros y [<- | []]. apply Qle_refl.
  - destruct (Qle_bool z x) eqn:Hzx.
    + apply Qle_bool_iff in Hzx. destruct (IH x) as [Hin Hle]. split.
      * destruct Hin as [Hin | Hin]; [left; exact Hin | right; right; exact Hin].
      * intros y [<- | [<- | Hy]].
        -- apply Hle. left; reflexivity.
        -- eapply Qle_trans; [exact Hzx | apply Hle; left; reflexivity].
        -- apply Hle. right; exact Hy.
    + assert (Hxz : x <= z).
      { apply Qlt_le_weak, Qnot_le_lt. intros Hle.
        apply Qle_bool_iff in Hle. congruence. }
      destruct (IH z) as [Hin Hle]. split.
      * right. exact Hin.
      * intros y [<- | [<- | Hy]].
        -- eapply Qle_trans; [exact Hxz | apply Hle; left; reflexivity].
        -- apply Hle. left; reflexivity.
        -- apply Hle. right; exact Hy.
Qed.
End Sorting.

Lemma py_index_in_range {A : Type} (l : list A) (i : Z) :
  0 <= i < Z.of_nat (length l) -> py_index l i = nth_error l (Z.to_nat i).
Proof.
  intros Hi. unfold py_index.
  destruct (Z.leb_spec 0 i); [|lia].
  destruct (Z.ltb_spec i (Z.of_nat (length l))); [|lia].
  reflexivity.
Qed.

Lemma py_int_nonneg (x : Q) : (0 <= x)%Q -> py_int x = Qfloor x.
Proof.
  destruct x as [n d]. unfold Qle, py_int, Qfloor. cbn [Qnum Qden].
  intros Hn. apply Z.quot_div_nonneg; lia.
Qed.


Section PercentileIndex.
Local Open Scope Q_scope.
Variables (x : Q) (rest : list Q) (p : Q).
Hypothesis (p_lo : 0 <= p) (p_hi : p <= 100).

Let s := sorted (x :: rest).
Let n := Z.of_nat (length s).
Let idx := inject_Z (n - 1) * p / 100.

Lemma percentile_length : length s = S (length rest).
Proof. subst s. rewrite sorted_length. reflexivity. Qed.

Lemma percentile_idx_bounds : 0 <= idx /\ idx <= inject_Z (n - 1).
Proof.
  assert (Hn : 0 <= inject_Z (n - 1)).
  { change 0 with (inject_Z 0). rewrite <- Zle_Qle. subst n.
    rewrite percentile_length. lia. }
  subst idx. set (m := inject_Z (n - 1)) in *.
  unfold Qdiv. change (/ 100) with (1 # 100).
  split; nra.
Qed.

Lemma percentile_floor_bounds : (0 <= Qfloor idx <= n - 1)%Z.
Proof.
  destruct percentile_idx_bounds as [Hlo Hhi]. split.
  - change 0%Z with (Qfloor 0). apply Qfloor_resp_le, Hlo.
  - rewrite <- (Qfloor_Z (n - 1)). apply Qfloor_resp_le, Hhi.
Qed.

Lemma percentile_fraction :
  0 <= idx - inject_Z (Qfloor idx) /\ idx - inject_Z (Qfloor idx) < 1.
Proof.
  assert (H1 := Qfloor_le idx). assert (H2 := Qlt_floor idx).
  rewrite inject_Z_plus in H2. change (inject_Z 1) with 1 in H2.
  split; lra.
Qed.

(** The two ways [calculate_percentile] returns for [p] in [0, 100]:
    interpolation between two neighbours of the sorted data, or the last
    element when [idx] is the last index. *)
Lemma calculate_percentile_cases :
  exists (f : nat) (lo : Q),
    Qfloor idx = Z.of_nat f /\ nth_error s f = Some lo /\
    ((exists hi, nth_error s (S f) = Some hi /\
        calculate_percentile (x :: rest) p =
          Some (lo + (hi - lo) * (idx - inject_Z (Qfloor idx))))
     \/ (S f = length s /\ idx == inject_Z (Qfloor idx) /\
         calculate_percentile (x :: rest) p = Some lo)).
Proof.
  destruct percentile_floor_bounds as [Hf0 Hf1].
  destruct percentile_idx_bounds as [Hi0 Hi1].
  exists (Z.to_nat (Qfloor idx)).
  assert (Hlt : (Z.to_nat (Qfloor idx) < length s)%nat) by (subst n; lia).
  destruct (nth_error s (Z.to_nat (Qfloor idx))) as [lo|] eqn:Hlo;
    [|apply nth_error_None in Hlo; lia].
  exists lo. split; [lia|]. split; [reflexivity|].
  unfold calculate_percentile. fold s. fold n. fold idx.
  rewrite (py_int_nonneg idx Hi0).
  assert (Hpf : py_index s (Qfloor idx) = Some lo).
  { rewrite py_index_in_range by (fold n; lia). exact Hlo. }
  rewrite Hpf.
  destruct (Z.ltb_spec (Qfloor idx + 1) n) as [Hc | Hc].
  - left.
    assert (Hlt' : (S (Z.to_nat (Qfloor idx)) < length s)%nat) by (subst n; lia).
    destruct (nth_error s (S (Z.to_nat (Qfloor idx)))) as [hi|] eqn:Hhi;
      [|apply nth_error_None in Hhi; lia].
    exists hi. split; [reflexivity|].
    rewrite py_index_in_range by (fold n; lia).
    replace (Z.to_nat (Qfloor idx + 1)) with (S (Z.to_nat (Qfloor idx))) by lia.
    rewrite Hhi. reflexivity.
  - right. split; [subst n; lia|]. split; [|reflexivity].
    assert (Heq : Qfloor idx = (n - 1)%Z) by lia.
    apply Qle_antisym; [rewrite Heq; exact Hi1 | apply Qfloor_le].
Qed.
End PercentileIndex.

Section PercentileFacts.
Local Open Scope Q_scope.
Variables (x : Q) (rest : list Q) (p : Q).
Hypothesis (p_lo : 0 <= p) (p_hi : p <= 100).

Let s := sorted (x :: rest).
Let idx := inject_Z (Z.of_nat (length s) - 1) * p / 100.

Lemma sorted_elem_bounds (y : Q) :
  In y s -> minimum x rest <= y /\ y <= maximum x rest.
Proof.
  intros Hy. apply (Permutation_in _ (sorted_perm (x :: rest))) in Hy.
  split; [apply minimum_spec | apply maximum_spec]; exact Hy.
Qed.

Lemma percentile_in_range :
  exists v, calculate_percentile (x :: rest) p = Some v
            /\ minimum x rest <= v /\ v <= maximum x rest.
Proof.
  destruct (calculate_percentile_cases x rest p p_lo p_hi)
    as (f & lo & Hf & Hlo & [(hi & Hhi & Hv) | (_ & _ & Hv)]).
  - exists (lo + (hi - lo) * (idx - inject_Z (Qfloor idx))).
    split; [exact Hv|].
    destruct (percentile_fraction x rest p) as [Ht0 Ht1].
    fold s idx in Ht0, Ht1.
    set (t := idx - inject_Z (Qfloor idx)) in *.
    assert (Hle : lo <= hi).
    { apply (ascending_nth s (sorted_ascending _) f (S f));
        [lia | exact Hlo | exact Hhi]. }
    destruct (sorted_elem_bounds lo (nth_error_In _ _ Hlo)) as [Hlo1 _].
    destruct (sorted_elem_bounds hi (nth_error_In _ _ Hhi)) as [_ Hhi2].
    split; nra.
  - exists lo. split; [exact Hv|].
    apply sorted_elem_bounds, (nth_error_In _ _ Hlo).
Qed.



End PercentileFacts.





(** ** Text files as lists of lines *)

Lemma append_assoc (a b c : string) : (a +:+ b) +:+ c = a +:+ (b +:+ c).
Proof.
  induction a as [|x a IH]; [reflexivity | exact (f_equal (String x) IH)].
Qed.

Lemma append_empty_r (a : string) : a +:+ EmptyString = a.
Proof.
  induction a as [|x a IH]; [reflexivity | exact (f_equal (String x) IH)].
Qed.



(** Writing back all the lines of a file gives the file. *)
Lemma concat_file_lines (content : string) :
  concat_lines (file_lines content) = content.
Proof.
  induction content as [|c rest IH]; [reflexivity|].
  cbn [file_lines]. destruct (Ascii.eqb c newline).
  - change (String c (concat_lines (file_lines rest)) = String c rest).
    rewrite IH. reflexivity.
  - destruct (file_lines rest) as [|l ls].
    + change (EmptyString = rest) in IH. subst rest. reflexivity.
    + change (l +:+ concat_lines ls = rest) in IH.
      change (String c (l +:+ concat_lines ls) = String c rest).
      rewrite IH. reflexivity.
Qed.

Lemma concat_lines_app (xs ys : list string) :
  concat_lines (xs ++ ys) = concat_lines xs +:+ concat_lines ys.
Proof.
  induction xs as [|x xs IH]; [reflexivity|].
  change (x +:+ concat_lines (xs ++ ys)
          = (x +:+ concat_lines xs) +:+ concat_lines ys).
  rewrite IH. symmetry. apply append_assoc.
Qed.

(** ** File-system steps *)


Lemma run_ops_app (ops1 ops2 : list FsOp) (fs : FS) :
  run_ops (ops1 ++ ops2) fs = run_ops ops2 (run_ops ops1 fs).
Proof. unfold run_ops. apply fold_left_app. Qed.

(** Writes to one file leave the others alone and append to that one. *)
Lemma run_writes (path : string) (chunks : list string) : forall (fs : FS),
  run_ops (map (WriteData path) chunks) fs =
    match chunks with
    | [] => fs
    | _ :: _ => <[path := default EmptyString (fs !! path) +:+ concat_lines chunks]> fs
    end.
Proof.
  induction chunks as [|c chunks IH]; intros fs; [reflexivity|].
  cbn [map]. change (run_ops (?op :: ?ops) fs) with (run_ops ops (apply_op fs op)).
  rewrite IH. cbn [apply_op]. destruct chunks as [|c' chunks].
  - change (concat_lines [c]) with (c +:+ EmptyString).
    rewrite append_empty_r. reflexivity.
  - rewrite lookup_insert_eq. cbn [default].
    rewrite insert_insert_eq.
    change (concat_lines (c :: c' :: chunks))
      with (c +:+ concat_lines (c' :: chunks)).
    unfold id. rewrite append_assoc. reflexivity.
Qed.

(** ** Dates as strings *)

Ltac div_mod_bounds n b :=
  pose proof (Z.div_mod n b ltac:(lia));
  pose proof (Z.mod_pos_bound n b ltac:(lia));
  lia.

Lemma digit_compare (x y : Z) :
  0 <= x <= 9 -> 0 <= y <= 9 ->
  Ascii.compare (digit x) (digit y) = (x ?= y).
Proof.
  intros Hx Hy.
  assert (Hx' : x = 0 \/ x = 1 \/ x = 2 \/ x = 3 \/ x = 4 \/ x = 5 \/ x = 6
                \/ x = 7 \/ x = 8 \/ x = 9) by lia.
  assert (Hy' : y = 0 \/ y = 1 \/ y = 2 \/ y = 3 \/ y = 4 \/ y = 5 \/ y = 6
                \/ y = 7 \/ y = 8 \/ y = 9) by lia.
  repeat (destruct Hx' as [-> | Hx']; [|]);
    repeat (destruct Hy' as [-> | Hy']; [|]); subst; reflexivity.
Qed.

(** Comparing quotient first and remainder second is comparing the
    numbers. *)
Lemma compare_div_mod (b n m : Z) (rest : comparison) :
  0 < b ->
  match n / b ?= m / b with
  | Eq => match n mod b ?= m mod b with Eq => rest | c => c end
  | c => c
  end
  = match n ?= m with Eq => rest | c => c end.
Proof.
  intros Hb.
  assert (Hn := Z.div_mod n b ltac:(lia)).
  assert (Hm := Z.div_mod m b ltac:(lia)).
  assert (Hnr := Z.mod_pos_bound n b Hb).
  assert (Hmr := Z.mod_pos_bound m b Hb).
  set (qn := n / b) in *. set (qm := m / b) in *.
  set (rn := n mod b) in *. set (rm := m mod b) in *.
  clearbody qn qm rn rm.
  destruct (Z.compare_spec qn qm) as [Hq | Hq | Hq].
  - subst qm. destruct (Z.compare_spec rn rm) as [Hr | Hr | Hr].
    + replace (n ?= m) with Eq; [reflexivity|].
      symmetry. apply Z.compare_eq_iff. lia.
    + replace (n ?= m) with Lt; [reflexivity|].
      symmetry. apply Z.compare_lt_iff. lia.
    + replace (n ?= m) with Gt; [reflexivity|].
      symmetry. apply Z.compare_gt_iff. lia.
  - replace (n ?= m) with Lt; [reflexivity|].
    symmetry. apply Z.compare_lt_iff. nia.
  - replace (n ?= m) with Gt; [reflexivity|].
    symmetry. apply Z.compare_gt_iff. nia.
Qed.

Lemma compare_pad2 (n m : Z) (s t : string) :
  0 <= n < 100 -> 0 <= m < 100 ->
  String.compare (pad2 n +:+ s) (pad2 m +:+ t) =
    match n ?= m with Eq => String.compare s t | c => c end.
Proof.
  intros Hn Hm. unfold pad2.
  change (String.compare
            (String (digit (n / 10)) (String (digit (n mod 10)) s))
            (String (digit (m / 10)) (String (digit (m mod 10)) t)) =
          match n ?= m with Eq => String.compare s t | c => c end).
  cbn [String.compare].
  assert (0 <= n / 10 <= 9 /\ 0 <= n mod 10 <= 9) as [? ?] by div_mod_bounds n 10.
  assert (0 <= m / 10 <= 9 /\ 0 <= m mod 10 <= 9) as [? ?] by div_mod_bounds m 10.
  rewrite !digit_compare by assumption.
  apply compare_div_mod. lia.
Qed.

Lemma compare_pad4 (n m : Z) (s t : string) :
  0 <= n < 10000 -> 0 <= m < 10000 ->
  String.compare (pad4 n +:+ s) (pad4 m +:+ t) =
    match n ?= m with Eq => String.compare s t | c => c end.
Proof.
  intros Hn Hm. unfold pad4. rewrite !append_assoc.
  assert (0 <= n / 100 < 100 /\ 0 <= n mod 100 < 100) as [? ?]
    by div_mod_bounds n 100.
  assert (0 <= m / 100 < 100 /\ 0 <= m mod 100 < 100) as [? ?]
    by div_mod_bounds m 100.
  rewrite compare_pad2 by assumption.
  rewrite (compare_pad2 (n mod 100)) by assumption.
  apply compare_div_mod. lia.
Qed.

(** On the dates written with four-digit years, the order of the strings
    is the order of the dates. *)
Lemma strftime_compare (a b : Date) :
  valid_date a -> valid_date b ->
  String.compare (strftime_ymd a) (strftime_ymd b) = date_compare a b.
Proof.
  intros (Hya & Hma & Hda) (Hyb & Hmb & Hdb).
  unfold strftime_ymd, date_compare.
  rewrite compare_pad4 by lia.
  destruct (year a ?= year b); try reflexivity.
  change ("-" +:+ ?s) with (String "-" s). cbn [String.compare].
  change (Ascii.compare "-" "-") with Eq. cbn match.
  rewrite compare_pad2 by lia.
  destruct (month a ?= month b); try reflexivity.
  change ("-" +:+ ?s) with (String "-" s). cbn [String.compare].
  change (Ascii.compare "-" "-") with Eq. cbn match.
  rewrite <- (append_empty_r (pad2 (day a))), <- (append_empty_r (pad2 (day b))).
  rewrite compare_pad2 by lia.
  destruct (day a ?= day b); reflexivity.
Qed.

Lemma strftime_leb (a b : Date) :
  valid_date a -> valid_date b ->
  String.leb (strftime_ymd a) (strftime_ymd b) = date_leb a b.
Proof.
  intros Ha Hb. unfold String.leb, date_leb.
  rewrite strftime_compare by assumption. reflexivity.
Qed.


(** ** Date arithmetic *)

Ltac date_order :=
  unfold date_compare in *; cbn [year month day] in *;
  repeat match goal with
  | H : context [?a ?= ?b] |- _ => destruct (Z.compare_spec a b); try discriminate H
  | |- context [?a ?= ?b] => destruct (Z.compare_spec a b)
  end;
  try reflexivity; try lia.

Lemma date_compare_lt_trans (a b c : Date) :
  date_compare a b = Lt -> date_compare b c = Lt -> date_compare a c = Lt.
Proof.
  destruct a as [ya ma da], b as [yb mb db], c as [yc mc dc].
  intros Hab Hbc. date_order.
Qed.

Lemma date_compare_refl (a : Date) : date_compare a a = Eq.
Proof. destruct a as [ya ma da]. unfold date_compare. rewrite !Z.compare_refl. reflexivity. Qed.

Lemma date_compare_antisym (a b : Date) :
  date_compare a b = CompOpp (date_compare b a).
Proof.
  destruct a as [ya ma da], b as [yb mb db]. unfold date_compare. cbn [year month day].
  rewrite (Z.compare_antisym yb ya), (Z.compare_antisym mb ma),
    (Z.compare_antisym db da).
  destruct (yb ?= ya), (mb ?= ma), (db ?= da); reflexivity.
Qed.

Lemma prev_day_lt (d : Date) : date_compare (prev_day d) d = Lt.
Proof.
  destruct d as [y m dd]. unfold prev_day. cbn [year month day].
  destruct (Z.ltb_spec 1 dd); [date_order|].
  destruct (Z.ltb_spec 1 m); date_order.
Qed.

Lemma days_in_month_bounds (y m : Z) : 28 <= days_in_month y m <= 31.
Proof.
  unfold days_in_month.
  destruct (m =? 2); [destruct (is_leap y); lia|].
  destruct ((m =? 4) || (m =? 6) || (m =? 9) || (m =? 11)); lia.
Qed.

(** The day before keeps month and day in range and does not increase the
    year. *)
Lemma prev_day_range (d : Date) :
  1 <= month d <= 12 -> 1 <= day d <= 31 ->
  1 <= month (prev_day d) <= 12 /\ 1 <= day (prev_day d) <= 31
  /\ year d - 1 <= year (prev_day d) <= year d.
Proof.
  destruct d as [y m dd]. unfold prev_day. cbn [year month day].
  intros Hm Hd.
  destruct (Z.ltb_spec 1 dd); cbn [year month day]; [lia|].
  destruct (Z.ltb_spec 1 m); cbn [year month day]; [|lia].
  pose proof (days_in_month_bounds y (m - 1)). lia.
Qed.

Lemma minus_days_nat (k : nat) (d : Date) :
  minus_days (Z.of_nat k) d = Nat.iter k prev_day d.
Proof.
  unfold minus_days. destruct (Z.leb_spec 0 (Z.of_nat k)); [|lia].
  rewrite Nat2Z.id. reflexivity.
Qed.

Lemma iter_prev_day_range (d : Date) (k : nat) :
  1 <= month d <= 12 -> 1 <= day d <= 31 ->
  1 <= month (Nat.iter k prev_day d) <= 12
  /\ 1 <= day (Nat.iter k prev_day d) <= 31
  /\ year (Nat.iter k prev_day d) <= year d.
Proof.
  intros Hm Hd. induction k as [|k (IHm & IHd & IHy)]; simpl Nat.iter; [lia|].
  destruct (prev_day_range _ IHm IHd) as (? & ? & ?). lia.
Qed.

(** Going back more days gives an earlier date. *)
Lemma iter_prev_day_lt (d : Date) (i j : nat) :
  (i < j)%nat ->
  date_compare (Nat.iter j prev_day d) (Nat.iter i prev_day d) = Lt.
Proof.
  induction 1 as [|j Hle IH]; simpl Nat.iter.
  - apply prev_day_lt.
  - eapply date_compare_lt_trans; [apply prev_day_lt | exact IH].
Qed.

Lemma iter_prev_day_year (d : Date) (i j : nat) :
  (i <= j)%nat ->
  1 <= month d <= 12 -> 1 <= day d <= 31 ->
  year (Nat.iter j prev_day d) <= year (Nat.iter i prev_day d).
Proof.
  intros Hij Hm Hd. induction Hij as [|j Hle IH]; [lia|].
  simpl Nat.iter.
  destruct (iter_prev_day_range d j Hm Hd) as (Hm' & Hd' & _).
  destruct (prev_day_range _ Hm' Hd') as (_ & _ & ?). lia.
Qed.

Lemma minus_days_leb (d : Date) (i j : nat) :
  date_leb (minus_days (Z.of_nat j) d) (minus_days (Z.of_nat i) d)
  = (i <=? j)%nat.
Proof.
  rewrite !minus_days_nat. unfold date_leb.
  destruct (Nat.leb_spec i j) as [Hij | Hij].
  - destruct (Nat.eq_dec i j) as [-> | Hne].
    + rewrite date_compare_refl. reflexivity.
    + rewrite iter_prev_day_lt by lia. reflexivity.
  - rewrite date_compare_antisym, iter_prev_day_lt by lia. reflexivity.
Qed.

(** The dates from [k] days before a valid date on are valid when the year
    [k] days before still has four digits. *)
Lemma minus_days_valid (d : Date) (i k : nat) :
  valid_date d -> 1000 <= year (minus_days (Z.of_nat k) d) -> (i <= k)%nat ->
  valid_date (minus_days (Z.of_nat i) d).
Proof.
  intros (Hy & Hm & Hd) Hk Hik. rewrite minus_days_nat in *.
  destruct (iter_prev_day_range d i Hm Hd) as (? & ? & ?).
  pose proof (iter_prev_day_year d i k Hik Hm Hd).
  unfold valid_date. lia.
Qed.

(** ** Pruning the sample store *)

Lemma filter_is_sublist {A : Type} (f : A -> bool) (l : list A) :
  sublist (List.filter f l) l.
Proof.
  induction l as [|x l IH]; cbn [List.filter]; [constructor|].
  destruct (f x); [apply sublist_skip | apply sublist_cons]; exact IH.
Qed.


(** Running the writes of [prune_samples]: the samples file holds the kept
    lines, the temporary file is gone. *)
Lemma prune_ops_run (json_loads : string -> option json)
    (cutoff content : string) (fs : FS) :
  run_ops (prune_ops json_loads cutoff content) fs =
    <[SAMPLES_FILE :=
        concat_lines (List.filter (keep_line json_loads cutoff)
                                  (file_lines content))]>
      (delete TEMP_FILE fs).
Proof.
  unfold prune_ops. set (kept := List.filter _ _).
  change (OpenTruncate TEMP_FILE :: ?ops)
    with ([OpenTruncate TEMP_FILE] ++ ops).
  rewrite !run_ops_app.
  change (run_ops [OpenTruncate TEMP_FILE] fs)
    with (<[TEMP_FILE := EmptyString]> fs).
  assert (Hwritten :
    run_ops (map (WriteData TEMP_FILE) kept) (<[TEMP_FILE := EmptyString]> fs)
    = <[TEMP_FILE := concat_lines kept]> fs).
  { rewrite run_writes. destruct kept as [|k kept']; [reflexivity|].
    rewrite lookup_insert_eq, insert_insert_eq. reflexivity. }
  rewrite Hwritten.
  change (run_ops [Replace TEMP_FILE SAMPLES_FILE] ?m)
    with (apply_op m (Replace TEMP_FILE SAMPLES_FILE)).
  cbn [apply_op]. rewrite lookup_insert_eq, delete_insert_eq. reflexivity.
Qed.

Section PruneFacts.
Variable json_loads : string -> option json.
Variables (now : Date) (RETENTION_DAYS : Z).

Let cutoff : Date := minus_days RETENTION_DAYS now.

Hypothesis cutoff_valid : valid_date cutoff.



End PruneFacts.



(** ** The summary scan *)


Lemma totals_app_no_totals_r (a : Totals) : totals_app a no_totals = a.
Proof.
  destruct a. unfold totals_app, no_totals. cbn.
  rewrite !app_nil_r. f_equal; lia.
Qed.

Lemma totals_app_assoc (a b c : Totals) :
  totals_app (totals_app a b) c = totals_app a (totals_app b c).
Proof.
  unfold totals_app. cbn. rewrite <- !app_assoc. f_equal; lia.
Qed.


Section ScanFacts.
Variable json_loads : string -> option json.
Variable target : string.

Ltac scan_unfold :=
  unfold scan_line, scan_body, mbind, scan_bind, mret, scan_ret, eval,
    continue, update, when.

(** A line that is not related to the target date leaves the totals as
    they are. *)
Lemma scan_line_unrelated (acc : Totals) (line : string) :
  related json_loads target line = false ->
  scan_line json_loads target acc line = acc.
Proof.
  unfold related. scan_unfold.
  destruct (json_loads line) as [s|]; [|reflexivity].
  destruct (timestamp_prefix s) as [ts|]; [|reflexivity].
  unfold ne_str. intros ->. reflexivity.
Qed.

End ScanFacts.


Section RoundTrip.
Variable json_loads : string -> option json.
Variable json_dumps : json -> string.
Variable target : string.






End RoundTrip.



(** ** The daily summary *)

(** C7.  When the scan finds no sample for yesterday, [run_daily_summary]
    sends nothing, leaves the files alone and sets [last_summary_date] to
    yesterday; with that date stored, a later call for the same day returns
    at once, whatever the files hold by then. *)
Theorem C7_no_samples_no_report :
  forall (json_loads : string -> option json) (RETENTION_DAYS : Z)
         (now : Date) (w : World),
    let yesterday := strftime_ymd (minus_days 1 now) in
    total_samples (scan_samples json_loads yesterday (files w)) = 0 ->
    exists w',
      run_daily_summary json_loads RETENTION_DAYS now w = Some w'
      /\ sent w' = sent w
      /\ files w' = files w
      /\ state w' = set_last_summary_date yesterday (state w)
      /\ last_summary_date (state w') = yesterday
      /\ forall later : World,
           last_summary_date (state later) = yesterday ->
           run_daily_summary json_loads RETENTION_DAYS now later = Some later.
Proof.
  intros json_loads RETENTION_DAYS now w yesterday Hzero.
  assert (Hlater : forall later : World,
             last_summary_date (state later) = yesterday ->
             run_daily_summary json_loads RETENTION_DAYS now later = Some later).
  { intros later Hdate. unfold run_daily_summary. fold yesterday.
    rewrite Hdate, String.eqb_refl. reflexivity. }
  unfold run_daily_summary. fold yesterday.
  destruct (String.eqb_spec (last_summary_date (state w)) yesterday) as [Heq | Hne].
  - exists w. repeat split; try assumption.
    destruct w as [fs [s cf cs d] msgs]. cbn in *. subst d. reflexivity.
  - rewrite Hzero. cbn [Z.eqb].
    eexists. split; [reflexivity|]. cbn [sent files state].
    repeat split; try reflexivity. exact Hlater.
Qed.

Lemma C7_witness :
  let w := mkWorld example_store default_state [] in
  exists w',
    run_daily_summary Json.loads 30 (mkDate 2024 3 12) w = Some w'
    /\ sent w' = []
    /\ files w' = example_store
    /\ state w' = set_last_summary_date "2024-03-11" default_state
    /\ last_summary_date (state w') = "2024-03-11"
    /\ forall later : World,
         last_summary_date (state later) = "2024-03-11" ->
         run_daily_summary Json.loads 30 (mkDate 2024 3 12) later = Some later.
Proof.
  apply (C7_no_samples_no_report Json.loads 30 (mkDate 2024 3 12)
           (mkWorld example_store default_state [])).
  vm_compute. reflexivity.
Defined.

(** C10.  A line that decodes, carries the target date and both probe
    results with their latency, but has no [mem_percent]: the body of the
    scan loop ends by an exception after it has counted the line in
    [total_samples] and appended the latencies of the probes that are up;
    the memory and disk series get no entry.  After scanning a file with
    only this line, the memory and disk series have fewer entries than
    [total_samples]. *)
Theorem C10_scan_line_partial_update :
  forall (json_loads : string -> option json) (yesterday line : string)
         (s fe be r fe_latency be_latency be_status : json) (acc : Totals),
    json_loads line = Some s ->
    timestamp_prefix s = Some (JStr yesterday) ->
    getitem s "frontend" = Some fe ->
    getitem fe "status" = Some (JStr "UP") ->
    getitem fe "latency_ms" = Some fe_latency ->
    getitem s "backend" = Some be ->
    getitem be "status" = Some be_status ->
    getitem be "latency_ms" = Some be_latency ->
    getitem s "resources" = Some r ->
    getitem r "mem_percent" = None ->
    let acc' := scan_line json_loads yesterday acc line in
    fst (scan_body json_loads yesterday line acc) = Raised
    /\ total_samples acc' = total_samples acc + 1
    /\ fe_latencies acc' = fe_latencies acc ++ [fe_latency]
    /\ be_latencies acc' =
         be_latencies acc ++ (if eq_str be_status "UP" then [be_latency] else [])
    /\ mem_percents acc' = mem_percents acc
    /\ disk_percents acc' = disk_percents acc
    /\ let t := scan_lines json_loads yesterday [line] in
       total_samples t = 1
       /\ Z.of_nat (length (mem_percents t)) < total_samples t
       /\ Z.of_nat (length (disk_percents t)) < total_samples t.
Proof.
  intros json_loads yesterday line s fe be r fe_latency be_latency be_status
    acc Hloads Hts Hfe Hfes Hfel Hbe Hbes Hbel Hres Hmem.
  assert (Hbody : forall a,
    scan_body json_loads yesterday line a =
      (Raised,
       mkTotals (fe_latencies a ++ [fe_latency])
                (be_latencies a
                   ++ (if eq_str be_status "UP" then [be_latency] else []))
                (mem_percents a) (disk_percents a)
                (total_samples a + 1) (fe_up_count a + 1)
                (be_up_count a + (if eq_str be_status "UP" then 1 else 0))
                (both_up_count a + (if eq_str be_status "UP" then 1 else 0)))).
  { intros a.
    unfold scan_body, mbind, scan_bind, mret, scan_ret, eval, continue,
      update, when.
    rewrite Hloads, Hts. unfold ne_str. cbn [eq_str].
    rewrite String.eqb_refl. cbn [negb].
    rewrite Hfe, Hfes, Hbe, Hbes, Hfel. cbn [eq_str String.eqb Ascii.eqb Bool.eqb].
    destruct (eq_str be_status "UP"); cbn [andb]; rewrite ?Hbel, Hres, Hmem;
      destruct a; unfold incr_total, incr_fe_up, incr_be_up, incr_both_up,
        append_fe_latency, append_be_latency;
      cbn [fe_latencies be_latencies mem_percents disk_percents total_samples
           fe_up_count be_up_count both_up_count];
      rewrite ?app_nil_r, ?Z.add_0_r; reflexivity. }
  unfold scan_lines, scan_line. cbn [fold_left]. rewrite !Hbody.
  cbn [fst snd fe_latencies be_latencies mem_percents disk_percents
       total_samples fe_up_count be_up_count both_up_count no_totals length].
  repeat split; lia.
Qed.

Lemma C10_witness :
  let t := scan_lines Json.loads "2024-03-09" [example_line_without_mem] in
  total_samples t = 1
  /\ fe_latencies t = [JInt 12]
  /\ mem_percents t = []
  /\ disk_percents t = [].
Proof.
  destruct (C10_scan_line_partial_update Json.loads "2024-03-09"
              example_line_without_mem
              (JDict [("frontend", probe_json (mkProbe FE_URL UP 200 12 ""));
                      ("backend", probe_json (mkProbe BE_URL DOWN 502 9
                                                "HTTP Error 502: Bad Gateway"));
                      ("resources",
                       JDict [("timestamp",
                               JStr "2024-03-09T00:00:30.500000+00:00")])])
              (probe_json (mkProbe FE_URL UP 200 12 ""))
              (probe_json (mkProbe BE_URL DOWN 502 9 "HTTP Error 502: Bad Gateway"))
              (JDict [("timestamp", JStr "2024-03-09T00:00:30.500000+00:00")])
              (JInt 12) (JInt 9) (JStr "DOWN") no_totals)
    as (_ & Htotal & Hfe & _ & Hmem & Hdisk & _);
    try (vm_compute; reflexivity).
  repeat split; assumption.
Defined.

(** ** Persistence: what other processes can see *)

Lemma observable_states_last (ops : list FsOp) (fs : FS) :
  nth_error (observable_states ops fs) (length ops) = Some (run_ops ops fs).
Proof.
  unfold observable_states.
  rewrite nth_error_map, nth_error_seq.
  destruct (Nat.ltb_spec (length ops) (S (length ops))); [|lia].
  cbn [option_map Nat.add]. rewrite firstn_all. reflexivity.
Qed.

(** The states of the file system while [save_state] runs. *)
Lemma save_state_observable (json_dumps : json -> string) (st : State) (fs : FS) :
  observable_states (save_state_ops json_dumps st) fs =
    [fs;
     <[STATE_FILE := EmptyString]> fs;
     <[STATE_FILE := json_dumps (state_json st)]> fs].
Proof.
  unfold observable_states, save_state_ops, run_ops.
  cbn [length seq map firstn fold_left apply_op].
  rewrite lookup_insert_eq, insert_insert_eq. reflexivity.
Qed.

(** Operations on other files leave a file as it is. *)
Lemma run_ops_other_file (path : string) (ops : list FsOp) : forall (fs : FS),
  Forall (fun op => op_target op <> path /\ is_replace op = false) ops ->
  run_ops ops fs !! path = fs !! path.
Proof.
  induction ops as [|op ops IH]; intros fs Hops; [reflexivity|].
  inversion Hops as [|? ? [Htarget Hrepl] Hrest]; subst.
  change (run_ops (op :: ops) fs) with (run_ops ops (apply_op fs op)).
  rewrite (IH _ Hrest).
  destruct op as [p | p data | src dst]; cbn [apply_op op_target is_replace] in *;
    [apply lookup_insert_ne; exact Htarget
    |apply lookup_insert_ne; exact Htarget
    |discriminate].
Qed.

Lemma in_prefix {A : Type} (k : nat) (l : list A) (x : A) :
  In x (firstn k l) -> In x l.
Proof.
  revert l. induction k as [|k IH]; intros [|y l]; cbn [firstn];
    try contradiction.
  intros [-> | Hx]; [left; reflexivity | right; apply IH, Hx].
Qed.

(** [prune_samples], by contrast, writes to the temporary file and puts it
    in place with one [os.replace]: at every moment the samples file holds
    either all it held before or all the kept lines. *)
Lemma prune_replaces_atomically (json_loads : string -> option json)
    (cutoff content : string) (fs fs_seen : FS) :
  fs !! SAMPLES_FILE = Some content ->
  In fs_seen (observable_states (prune_ops json_loads cutoff content) fs) ->
  fs_seen !! SAMPLES_FILE = Some content
  \/ fs_seen !! SAMPLES_FILE =
       Some (concat_lines (List.filter (keep_line json_loads cutoff)
                                       (file_lines content))).
Proof.
  intros Hfile Hseen. unfold observable_states in Hseen.
  apply in_map_iff in Hseen. destruct Hseen as (k & <- & Hk).
  apply in_seq in Hk.
  set (kept := List.filter (keep_line json_loads cutoff) (file_lines content)).
  set (writes := OpenTruncate TEMP_FILE :: map (WriteData TEMP_FILE) kept).
  assert (Hops : prune_ops json_loads cutoff content
                 = writes ++ [Replace TEMP_FILE SAMPLES_FILE]) by reflexivity.
  assert (Hwrites : Forall (fun op => op_target op <> SAMPLES_FILE
                                      /\ is_replace op = false) writes).
  { subst writes. constructor; [split; [discriminate | reflexivity]|].
    rewrite Forall_map. apply Forall_forall. intros l _.
    split; [discriminate | reflexivity]. }
  rewrite Hops in *. rewrite length_app in Hk. cbn [length] in Hk.
  destruct (Nat.le_gt_cases k (length writes)) as [Hle | Hgt].
  - left. rewrite firstn_app.
    replace (k - length writes)%nat with 0%nat by lia.
    cbn [firstn]. rewrite app_nil_r.
    rewrite run_ops_other_file; [exact Hfile|].
    apply Forall_forall. intros op Hop. rewrite Forall_forall in Hwrites.
    apply Hwrites. eapply in_prefix, Hop.
  - right. rewrite firstn_all2 by (rewrite length_app; cbn [length]; lia).
    rewrite <- Hops.
    rewrite prune_ops_run. apply lookup_insert_eq.
Qed.

(** [save_state] opens the state file itself for writing: the file is
    empty from the [open] until the JSON text reaches it, no other file is
    written and nothing is renamed. *)
Lemma save_state_overwrites_in_place (json_dumps : json -> string)
    (st : State) (fs : FS) :
  nth_error (observable_states (save_state_ops json_dumps st) fs) 1
    = Some (<[STATE_FILE := EmptyString]> fs)
  /\ existsb is_replace (save_state_ops json_dumps st) = false
  /\ Forall (fun op => op_target op = STATE_FILE) (save_state_ops json_dumps st)
  /\ save_state json_dumps st fs !! STATE_FILE
     = Some (json_dumps (state_json st)).
Proof.
  rewrite save_state_observable. repeat split.
  - repeat constructor.
  - unfold save_state, save_state_ops, run_ops. cbn [fold_left apply_op].
    rewrite !lookup_insert_eq. reflexivity.
Qed.

(** C4.  [save_state] at work on a store whose state file holds the state
    of the previous tick: between its two steps the state file is there and
    empty, which is neither the previous state nor the new one, and
    [load_state] reads it as the default state.  The claim asks for a write
    to a temporary file and an atomic replace, as [prune_samples] does
    ([prune_replaces_atomically]). *)
Theorem C4_state_file_observable_empty :
  let seen : FS := <[STATE_FILE := EmptyString]> example_state_store in
  In seen (observable_states (save_state_ops Json.dumps example_new_state)
                             example_state_store)
  /\ seen !! STATE_FILE = Some EmptyString
  /\ example_state_store !! STATE_FILE
     = Some (Json.dumps (state_json example_old_state))
  /\ save_state Json.dumps example_new_state example_state_store !! STATE_FILE
     = Some (Json.dumps (state_json example_new_state))
  /\ Json.dumps (state_json example_old_state) <> EmptyString
  /\ Json.dumps (state_json example_new_state) <> EmptyString
  /\ load_state Json.loads seen = state_json default_state
  /\ load_state Json.loads
       (save_state Json.dumps example_new_state example_state_store)
     = state_json example_new_state.
Proof.
  cbv zeta. rewrite save_state_observable.
  destruct (save_state_overwrites_in_place Json.dumps example_new_state
              example_state_store) as (_ & _ & _ & Hsaved).
  refine (conj _ (conj _ (conj _ (conj _ (conj _ (conj _ (conj _ _))))))).
  - right. left. reflexivity.
  - apply lookup_insert_eq.
  - reflexivity.
  - exact Hsaved.
  - vm_compute. discriminate.
  - vm_compute. discriminate.
  - unfold load_state. rewrite lookup_insert_eq. vm_compute. reflexivity.
  - unfold load_state. rewrite Hsaved. vm_compute. reflexivity.
Qed.

(** * Further properties of the code *)

(** ** Runs of the alert logic *)

Lemma run_alerts_app (ticks1 ticks2 : list Tick) : forall st,
  run_alerts st (ticks1 ++ ticks2) =
    (fst (run_alerts (fst (run_alerts st ticks1)) ticks2),
     snd (run_alerts st ticks1)
       ++ snd (run_alerts (fst (run_alerts st ticks1)) ticks2)).
Proof.
  induction ticks1 as [|t ticks1 IH]; intros st.
  - cbn [app run_alerts fst snd]. destruct (run_alerts st ticks2); reflexivity.
  - cbn [app]. rewrite !run_alerts_cons, IH. reflexivity.
Qed.

Lemma final_state_snoc (ticks : list Tick) (t : Tick) (st : State) :
  final_state st (ticks ++ [t]) = fst (alert_tick t (final_state st ticks)).
Proof.
  unfold final_state. rewrite run_alerts_app, run_alerts_cons. reflexivity.
Qed.

Lemma streak_snoc (b x : bool) (outs : list bool) :
  streak b (outs ++ [x]) = if Bool.eqb x b then S (streak b outs) else 0%nat.
Proof. unfold streak. rewrite rev_app_distr. reflexivity. Qed.

Lemma counters_are_streaks (s : Status) (d : string) (ticks : list Tick) :
  consecutive_failures (final_state (mkState s 0 0 d) ticks)
    = Z.of_nat (streak false (map tick_up ticks))
  /\ consecutive_successes (final_state (mkState s 0 0 d) ticks)
     = Z.of_nat (streak true (map tick_up ticks)).
Proof.
  induction ticks as [|t ticks [IHf IHs]] using rev_ind.
  - split; reflexivity.
  - rewrite final_state_snoc, map_app. cbn [map].
    rewrite !streak_snoc. unfold alert_tick.
    rewrite alert_logic_failures, alert_logic_successes.
    fold (tick_up t). rewrite IHf, IHs.
    destruct (tick_up t); cbn [Bool.eqb]; split; lia.
Qed.

(** X1.  Started with both counters 0, [consecutive_failures] is the length
    of the streak of failing ticks the run ends with, and
    [consecutive_successes] the length of the streak of ticks with both
    endpoints up. *)
Theorem X1_counters_are_streak_lengths :
  forall (s : Status) (d : string) (ticks : list Tick),
    let st := final_state (mkState s 0 0 d) ticks in
    consecutive_failures st = Z.of_nat (streak false (map tick_up ticks))
    /\ consecutive_successes st = Z.of_nat (streak true (map tick_up ticks)).
Proof. intros s d ticks. apply counters_are_streaks. Qed.

Lemma leading_three (b : bool) (outs : list bool) :
  (3 <= leading b outs)%nat -> exists rest, outs = b :: b :: b :: rest.
Proof.
  destruct outs as [|x1 [|x2 [|x3 rest]]]; cbn [leading];
    repeat match goal with
    | |- context [Bool.eqb ?x b] => destruct (Bool.eqb_spec x b); subst
    end; try lia.
  intros _. exists rest. reflexivity.
Qed.

Lemma streak_three (b : bool) (outs : list bool) :
  (3 <= streak b outs)%nat -> exists pre, outs = pre ++ [b; b; b].
Proof.
  unfold streak. intros H. apply leading_three in H. destruct H as [rest Hrev].
  exists (rev rest). rewrite <- (rev_involutive outs), Hrev.
  cbn [rev]. rewrite <- !app_assoc. reflexivity.
Qed.

(** The last three ticks of a run whose outcomes end with a streak of
    three. *)
Lemma ticks_end_with_streak (b : bool) (ticks : list Tick) (t : Tick) :
  (3 <= streak b (map tick_up (ticks ++ [t])))%nat ->
  exists pre t1 t2,
    ticks = pre ++ [t1; t2]
    /\ tick_up t1 = b /\ tick_up t2 = b /\ tick_up t = b.
Proof.
  intros H. apply streak_three in H. destruct H as [pre Hpre].
  rewrite map_app in Hpre. cbn [map] in Hpre.
  change (pre ++ [b; b; b]) with (pre ++ [b; b] ++ [b]) in Hpre.
  rewrite app_assoc in Hpre.
  apply app_inj_tail in Hpre. destruct Hpre as [Hticks Ht].
  apply map_eq_app in Hticks.
  destruct Hticks as (pre' & last2 & -> & _ & Hlast).
  destruct last2 as [|t1 [|t2 [|? ?]]]; try discriminate.
  cbn [map] in Hlast. injection Hlast as H1 H2.
  exists pre', t1, t2. repeat split; assumption.
Qed.

(** X2.  Started with both counters 0: a DOWN alert is sent only on the
    third of three failing ticks in a row, a recovery notice only on the
    third of three ticks in a row with both endpoints up.  Outcomes that
    flap faster than that send nothing. *)
Theorem X2_alert_needs_three_in_a_row :
  forall (s : Status) (d : string) (ticks : list Tick) (t : Tick),
    let st := final_state (mkState s 0 0 d) ticks in
    let sent := snd (alert_tick t st) in
    (fires_down sent = true ->
     exists pre t1 t2,
       ticks = pre ++ [t1; t2]
       /\ tick_up t1 = false /\ tick_up t2 = false /\ tick_up t = false)
    /\ (fires_recovery sent = true ->
        exists pre t1 t2,
          ticks = pre ++ [t1; t2]
          /\ tick_up t1 = true /\ tick_up t2 = true /\ tick_up t = true).
Proof.
  intros s d ticks t st sent.
  destruct (counters_are_streaks s d (ticks ++ [t])) as [Hf Hs].
  rewrite final_state_snoc in Hf, Hs. fold st in Hf, Hs.
  split; intros Hfires; apply ticks_end_with_streak.
  - apply (fires_down_iff (fst t) (snd t) st) in Hfires.
    destruct Hfires as [Hc _]. fold (alert_tick t st) in Hc. lia.
  - apply (fires_recovery_iff (fst t) (snd t) st) in Hfires.
    destruct Hfires as [Hc _]. fold (alert_tick t st) in Hc. lia.
Qed.

Lemma X2_witness :
  exists pre t1 t2,
    [tick_ok; tick_fail; tick_fail] = pre ++ [t1; t2]
    /\ tick_up t1 = false /\ tick_up t2 = false /\ tick_up tick_fail = false.
Proof.
  apply (X2_alert_needs_three_in_a_row UP EmptyString
           [tick_ok; tick_fail; tick_fail] tick_fail).
  reflexivity.
Defined.

(** What a tick can do to the stored status: nothing, or one alert that
    flips it. *)
Lemma alert_tick_shape (t : Tick) (st : State) :
  let st' := fst (alert_tick t st) in
  let sent := snd (alert_tick t st) in
  (sent = [] /\ last_alert_status st' = last_alert_status st)
  \/ (sent = [DownAlert (fst t) (snd t)]
      /\ last_alert_status st = UP /\ last_alert_status st' = DOWN)
  \/ (sent = [RecoveryNotice]
      /\ last_alert_status st = DOWN /\ last_alert_status st' = UP).
Proof.
  cbv zeta. rewrite tick_up_determines.
  destruct st as [[] cf cs d]; destruct (tick_up t);
    cbn [last_alert_status consecutive_failures consecutive_successes
         status_eqb andb];
    rewrite ?andb_false_r, ?andb_true_r;
    repeat match goal with
    | |- context [Z.eqb ?a ?b] => destruct (Z.eqb a b)
    end;
    cbn [fst snd last_alert_status]; auto.
Qed.

Lemma alerts_of_cons (t : Tick) (rest : list Tick) (st : State) :
  alerts_of st (t :: rest) =
    snd (alert_tick t st) ++ alerts_of (fst (alert_tick t st)) rest.
Proof. unfold alerts_of. rewrite run_alerts_cons. reflexivity. Qed.

Lemma alerts_alternate (ticks : list Tick) : forall st,
  alternates (status_eqb (last_alert_status st) UP) (alerts_of st ticks) = true
  /\ last_alert_status (final_state st ticks) =
       match rev (alerts_of st ticks) with
       | [] => last_alert_status st
       | a :: _ => if is_down_alert a then DOWN else UP
       end.
Proof.
  induction ticks as [|t rest IH]; intros st.
  - split; reflexivity.
  - rewrite alerts_of_cons, final_state_cons.
    destruct (IH (fst (alert_tick t st))) as [IHalt IHlast].
    destruct (alert_tick_shape t st)
      as [[-> Hsame] | [[-> [Hup Hdown]] | [-> [Hdown Hup]]]].
    + cbn [app]. rewrite <- Hsame. split; assumption.
    + cbn [app alternates is_down_alert]. rewrite Hup, Hdown in *.
      cbn [status_eqb Bool.eqb andb negb] in *. split; [exact IHalt|].
      rewrite IHlast. cbn [rev].
      destruct (rev (alerts_of (fst (alert_tick t st)) rest)); reflexivity.
    + cbn [app alternates is_down_alert]. rewrite Hup, Hdown in *.
      cbn [status_eqb Bool.eqb andb negb] in *. split; [exact IHalt|].
      rewrite IHlast. cbn [rev].
      destruct (rev (alerts_of (fst (alert_tick t st)) rest)); reflexivity.
Qed.

(** X3.  Over any run from any state, DOWN alerts and recovery notices
    take turns: the first alert is a DOWN alert when the run starts in [UP]
    and a recovery notice when it starts in [DOWN], no two alerts of the
    same kind follow each other, and the status stored at the end is the
    one the last alert announced (the initial one if none was sent). *)
Theorem X3_alerts_take_turns :
  forall (st : State) (ticks : list Tick),
    alternates (status_eqb (last_alert_status st) UP) (alerts_of st ticks) = true
    /\ last_alert_status (final_state st ticks) =
         match rev (alerts_of st ticks) with
         | [] => last_alert_status st
         | a :: _ => if is_down_alert a then DOWN else UP
         end.
Proof. intros st ticks. apply alerts_alternate. Qed.

(** X4.  A tick sends at most one alert, and after a tick that sends one
    the next two ticks send none: two alerts are at least three ticks
    apart. *)
Theorem X4_alerts_three_ticks_apart :
  forall (st : State) (t1 t2 t3 : Tick),
    let r1 := alert_tick t1 st in
    let r2 := alert_tick t2 (fst r1) in
    let r3 := alert_tick t3 (fst r2) in
    (length (snd r1) <= 1)%nat
    /\ (snd r1 <> [] -> snd r2 = [] /\ snd r3 = []).
Proof.
  intros st t1 t2 t3 r1 r2 r3. subst r1 r2 r3.
  rewrite !tick_up_determines.
  destruct st as [[] cf cs d]; destruct (tick_up t1), (tick_up t2), (tick_up t3);
    repeat (progress
              (cbn [last_alert_status consecutive_failures consecutive_successes
                    last_summary_date status_eqb andb fst snd length];
               rewrite ?andb_false_r, ?andb_true_r;
               try match goal with
                   | |- context [Z.eqb ?a ?b] => destruct (Z.eqb_spec a b)
                   end));
    (split; [lia|]); intros Hsent;
    cbn [last_alert_status consecutive_failures consecutive_successes
         last_summary_date fst snd] in *;
    try (exfalso; apply Hsent; reflexivity); try lia;
    split; first [reflexivity | exfalso; lia].
Qed.

Lemma X4_witness :
  let st := mkState UP 2 0 EmptyString in
  snd (alert_tick tick_ok (fst (alert_tick tick_fail st))) = []
  /\ snd (alert_tick tick_ok
            (fst (alert_tick tick_ok (fst (alert_tick tick_fail st))))) = [].
Proof.
  apply (X4_alerts_three_ticks_apart (mkState UP 2 0 EmptyString)
           tick_fail tick_ok tick_ok).
  discriminate.
Defined.

(** ** The summary scan on arbitrary files *)

Ltac scan_cases jl :=
  unfold scan_line, scan_body, mbind, scan_bind, when, mret, scan_ret, eval,
    continue, update;
  repeat (match goal with
          | |- context [jl ?l] => destruct (jl l)
          | |- context [timestamp_prefix ?s] => destruct (timestamp_prefix s)
          | |- context [ne_str ?a ?b] => destruct (ne_str a b)
          | |- context [getitem ?v ?k] => destruct (getitem v k)
          | |- context [eq_str ?a ?b] => destruct (eq_str a b)
          end; cbn [fst snd andb]).

(** Each update of the scan works on the end of the totals. *)
Lemma totals_app_commutes (a b : Totals) (v : json) :
  incr_total (totals_app a b) = totals_app a (incr_total b)
  /\ incr_fe_up (totals_app a b) = totals_app a (incr_fe_up b)
  /\ incr_be_up (totals_app a b) = totals_app a (incr_be_up b)
  /\ incr_both_up (totals_app a b) = totals_app a (incr_both_up b)
  /\ append_fe_latency v (totals_app a b) = totals_app a (append_fe_latency v b)
  /\ append_be_latency v (totals_app a b) = totals_app a (append_be_latency v b)
  /\ append_mem v (totals_app a b) = totals_app a (append_mem v b)
  /\ append_disk v (totals_app a b) = totals_app a (append_disk v b).
Proof.
  destruct a as [a1 a2 a3 a4 a5 a6 a7 a8], b as [b1 b2 b3 b4 b5 b6 b7 b8].
  unfold incr_total, incr_fe_up, incr_be_up, incr_both_up, append_fe_latency,
    append_be_latency, append_mem, append_disk, totals_app.
  cbn [fe_latencies be_latencies mem_percents disk_percents total_samples
       fe_up_count be_up_count both_up_count].
  rewrite <- !app_assoc, !Z.add_assoc. repeat split; reflexivity.
Qed.

Ltac pull_totals_app :=
  repeat match goal with
  | |- context [totals_app ?a (?f ?b)] =>
      first [ rewrite <- (proj1 (totals_app_commutes a b JNull))
            | rewrite <- (proj1 (proj2 (totals_app_commutes a b JNull)))
            | rewrite <- (proj1 (proj2 (proj2 (totals_app_commutes a b JNull))))
            | rewrite <- (proj1 (proj2 (proj2 (proj2
                                   (totals_app_commutes a b JNull))))) ]
  | |- context [totals_app ?a (?f ?v ?b)] =>
      first [ rewrite <- (proj1 (proj2 (proj2 (proj2 (proj2
                                   (totals_app_commutes a b v))))))
            | rewrite <- (proj1 (proj2 (proj2 (proj2 (proj2 (proj2
                                   (totals_app_commutes a b v)))))))
            | rewrite <- (proj1 (proj2 (proj2 (proj2 (proj2 (proj2 (proj2
                                   (totals_app_commutes a b v))))))))
            | rewrite <- (proj2 (proj2 (proj2 (proj2 (proj2 (proj2 (proj2
                                   (totals_app_commutes a b v)))))))) ]
  end.


Section ScanAnyFile.
Variable json_loads : string -> option json.
Variable target : string.

(** One line adds to the totals whatever they were. *)
Lemma scan_line_adds (acc : Totals) (line : string) :
  scan_line json_loads target acc line =
    totals_app acc (scan_line json_loads target no_totals line).
Proof.
  scan_cases json_loads; pull_totals_app;
    rewrite totals_app_no_totals_r; reflexivity.
Qed.


Lemma fold_scan_adds (lines : list string) : forall acc,
  fold_left (scan_line json_loads target) lines acc =
    totals_app acc (scan_lines json_loads target lines).
Proof.
  unfold scan_lines.
  induction lines as [|line lines IH]; intros acc; cbn [fold_left].
  - rewrite totals_app_no_totals_r. reflexivity.
  - rewrite IH, (IH (scan_line json_loads target no_totals line)).
    rewrite (scan_line_adds acc), totals_app_assoc. reflexivity.
Qed.

Lemma scan_lines_app (lines1 lines2 : list string) :
  scan_lines json_loads target (lines1 ++ lines2) =
    totals_app (scan_lines json_loads target lines1)
               (scan_lines json_loads target lines2).
Proof.
  unfold scan_lines at 1. rewrite fold_left_app.
  fold (scan_lines json_loads target lines1). apply fold_scan_adds.
Qed.


Lemma fold_scan_related (lines : list string) : forall acc,
  fold_left (scan_line json_loads target) lines acc =
    fold_left (scan_line json_loads target)
              (List.filter (related json_loads target) lines) acc.
Proof.
  induction lines as [|line lines IH]; intros acc; [reflexivity|].
  cbn [fold_left List.filter].
  destruct (related json_loads target line) eqn:Hrel.
  - cbn [fold_left]. apply IH.
  - rewrite (scan_line_unrelated json_loads target acc line Hrel). apply IH.
Qed.

End ScanAnyFile.




(** X6.  The scan of any list of lines is the scan of the lines related to
    the target date alone: lines that do not decode, that carry no
    timestamp, or that carry another date never change the totals. *)
Theorem X6_scan_ignores_unrelated_lines :
  forall (json_loads : string -> option json) (target : string)
         (lines : list string),
    scan_lines json_loads target lines =
      scan_lines json_loads target
                 (List.filter (related json_loads target) lines).
Proof. intros json_loads target lines. apply fold_scan_related. Qed.

(** X7.  The totals of a list of lines are the totals of its first part
    followed by the totals of the rest: series are concatenated, counts
    added, also when some line is given up half way. *)
Theorem X7_scan_of_concatenation :
  forall (json_loads : string -> option json) (target : string)
         (lines1 lines2 : list string),
    scan_lines json_loads target (lines1 ++ lines2) =
      totals_app (scan_lines json_loads target lines1)
                 (scan_lines json_loads target lines2).
Proof. intros json_loads target lines1 lines2. apply scan_lines_app. Qed.

(** ** The daily summary and the loop *)

Lemma prune_samples_other_path (json_loads : string -> option json)
    (now : Date) (RETENTION_DAYS : Z) (fs : FS) (path : string) :
  path <> SAMPLES_FILE -> path <> TEMP_FILE ->
  prune_samples json_loads now RETENTION_DAYS fs !! path = fs !! path.
Proof.
  intros Hs Ht. unfold prune_samples.
  destruct (fs !! SAMPLES_FILE) as [content|] eqn:Hfile; [|reflexivity].
  rewrite prune_ops_run, lookup_insert_ne by congruence.
  apply lookup_delete_ne. congruence.
Qed.

(** [fmt_stats] raises exactly on a series with an entry that is not a
    number. *)
Lemma fmt_stats_none (data : list json) :
  fmt_stats data = None <-> numbers data = None.
Proof.
  unfold fmt_stats. destruct (numbers data) as [[|x rest]|]; try tauto.
  - split; discriminate.
  - destruct (percentile_in_range x rest 99%Q) as (v & Hv & _);
      [discriminate | discriminate |].
    rewrite Hv. split; discriminate.
Qed.

Section SummaryFacts.
Variable json_loads : string -> option json.
Variable RETENTION_DAYS : Z.
Variable now : Date.

Let yesterday := strftime_ymd (minus_days 1 now).

Lemma run_daily_summary_done (w : World) :
  last_summary_date (state w) = yesterday ->
  run_daily_summary json_loads RETENTION_DAYS now w = Some w.
Proof.
  intros Hdate. unfold run_daily_summary. fold yesterday.
  rewrite Hdate, String.eqb_refl. reflexivity.
Qed.

(** What [run_daily_summary] returns when it returns. *)
Lemma run_daily_summary_some (w w' : World) :
  run_daily_summary json_loads RETENTION_DAYS now w = Some w' ->
  last_summary_date (state w') = yesterday
  /\ last_alert_status (state w') = last_alert_status (state w)
  /\ consecutive_failures (state w') = consecutive_failures (state w)
  /\ consecutive_successes (state w') = consecutive_successes (state w)
  /\ (sent w' = sent w
      \/ exists r, sent w' = sent w ++ [SummaryMessage r]
                   /\ report_date r = yesterday)
  /\ forall path, path <> SAMPLES_FILE -> path <> TEMP_FILE ->
                  files w' !! path = files w !! path.
Proof.
  unfold run_daily_summary. fold yesterday.
  destruct (String.eqb_spec (last_summary_date (state w)) yesterday) as [Heq|Hne].
  - intros [= <-]. repeat split; auto.
  - destruct (total_samples _ =? 0).
    + intros [= <-]. cbn [state sent files]. repeat split; auto.
    + destruct (fmt_stats (fe_latencies _)); [|discriminate].
      destruct (fmt_stats (be_latencies _)); [|discriminate].
      destruct (fmt_stats (mem_percents _)); [|discriminate].
      destruct (fmt_stats (disk_percents _)); [|discriminate].
      intros [= <-]. cbn [state sent files]. repeat split; auto.
      * right. eexists. split; reflexivity.
      * intros path Hs Ht. apply prune_samples_other_path; assumption.
Qed.
End SummaryFacts.

(** X8.  When [run_daily_summary] returns, [last_summary_date] is
    yesterday, at most one message was sent (a report for yesterday), the
    alert status and the counters are as before, and no file but the samples
    file and its temporary copy was touched; called again for the same day
    it changes nothing: at most one report per day. *)
Theorem X8_summary_once_a_day :
  forall (json_loads : string -> option json) (RETENTION_DAYS : Z)
         (now : Date) (w w' : World),
    run_daily_summary json_loads RETENTION_DAYS now w = Some w' ->
    let yesterday := strftime_ymd (minus_days 1 now) in
    last_summary_date (state w') = yesterday
    /\ run_daily_summary json_loads RETENTION_DAYS now w' = Some w'
    /\ last_alert_status (state w') = last_alert_status (state w)
    /\ consecutive_failures (state w') = consecutive_failures (state w)
    /\ consecutive_successes (state w') = consecutive_successes (state w)
    /\ (sent w' = sent w
        \/ exists r, sent w' = sent w ++ [SummaryMessage r]
                     /\ report_date r = yesterday)
    /\ forall path, path <> SAMPLES_FILE -> path <> TEMP_FILE ->
                    files w' !! path = files w !! path.
Proof.
  intros json_loads RETENTION_DAYS now w w' Hrun yesterday.
  destruct (run_daily_summary_some json_loads RETENTION_DAYS now w w' Hrun)
    as (Hdate & Hrest).
  split; [exact Hdate|]. split; [|exact Hrest].
  apply run_daily_summary_done. exact Hdate.
Qed.

Lemma X8_witness :
  let w := mkWorld example_store default_state [] in
  let w' := mkWorld example_store
                    (set_last_summary_date "2024-03-11" default_state) [] in
  last_summary_date (state w') = "2024-03-11"
  /\ run_daily_summary Json.loads 30 (mkDate 2024 3 12) w' = Some w'.
Proof.
  cbv zeta.
  destruct (X8_summary_once_a_day Json.loads 30 (mkDate 2024 3 12)
              (mkWorld example_store default_state [])
              (mkWorld example_store
                       (set_last_summary_date "2024-03-11" default_state) []))
    as (Hdate & Hagain & _).
  - vm_compute. reflexivity.
  - split; [exact Hdate | exact Hagain].
Defined.



Lemma samples_not_state : SAMPLES_FILE <> STATE_FILE.
Proof. discriminate. Qed.

Lemma temp_not_state : TEMP_FILE <> STATE_FILE.
Proof. discriminate. Qed.


Lemma append_sample_file (json_dumps : json -> string) (sample : json) (fs : FS) :
  append_sample json_dumps sample fs =
    <[SAMPLES_FILE := default EmptyString (fs !! SAMPLES_FILE)
                        +:+ (json_dumps sample +:+ nl)]> fs.
Proof. reflexivity. Qed.

(** X10.  A tick in the summary window on which [run_daily_summary] raises
    (yesterday not summarized, at least one sample, and a series with an
    entry that is not a number): the exception is caught by the loop after
    the sample was appended and the alert logic ran, so [save_state] is
    skipped.  The state file is as before the tick, no report is sent, and
    [last_summary_date] stays, so the next tick tries again. *)
Theorem X10_summary_exception_skips_save :
  forall (json_loads : string -> option json) (json_dumps : json -> string)
         (RETENTION_DAYS : Z) (now : Clock) (fe_res be_res : ProbeResult)
         (res_metrics : Resources) (w : World),
    let yesterday := strftime_ymd (minus_days 1 (today now)) in
    let sample := sample_json (mkSample fe_res be_res res_metrics) in
    let fs1 := append_sample json_dumps sample (files w) in
    let t := scan_samples json_loads yesterday fs1 in
    hour now = 0 -> 5 <= minute now ->
    last_summary_date (state w) <> yesterday ->
    total_samples t <> 0 ->
    (numbers (fe_latencies t) = None \/ numbers (be_latencies t) = None
     \/ numbers (mem_percents t) = None \/ numbers (disk_percents t) = None) ->
    let w' := main_tick json_loads json_dumps RETENTION_DAYS now
                        fe_res be_res res_metrics w in
    files w' = fs1
    /\ files w' !! STATE_FILE = files w !! STATE_FILE
    /\ state w' = fst (alert_logic fe_res be_res (state w))
    /\ last_summary_date (state w') = last_summary_date (state w)
    /\ sent w' = sent w ++ map AlertMessage
                               (snd (alert_logic fe_res be_res (state w))).
Proof.
  intros json_loads json_dumps RETENTION_DAYS now fe_res be_res res_metrics w
    yesterday sample fs1 t Hhour Hminute Hnew Htotal Hbad w'.
  subst w'. unfold main_tick. fold sample. fold fs1.
  assert (Hdate := alert_logic_summary_date fe_res be_res (state w)).
  destruct (alert_logic fe_res be_res (state w)) as [st1 alerts].
  cbn [fst snd] in *.
  rewrite Hhour. destruct (Z.leb_spec 5 (minute now)); [|lia].
  cbn [Z.eqb andb].
  assert (Hraise : run_daily_summary json_loads RETENTION_DAYS (today now)
                     (mkWorld fs1 st1 (sent w ++ map AlertMessage alerts))
                   = None).
  { unfold run_daily_summary. cbn [state files sent]. fold yesterday. fold t.
    rewrite Hdate.
    destruct (String.eqb_spec (last_summary_date (state w)) yesterday);
      [contradiction|].
    destruct (Z.eqb_spec (total_samples t) 0); [contradiction|].
    destruct Hbad as [Hn | [Hn | [Hn | Hn]]]; apply fmt_stats_none in Hn;
      rewrite Hn; repeat match goal with
                        | |- context [fmt_stats ?d] =>
                            destruct (fmt_stats d)
                        end; reflexivity. }
  rewrite Hraise. cbn [files state sent].
  repeat split; try reflexivity; try assumption.
  subst fs1. rewrite append_sample_file.
  apply lookup_insert_ne, samples_not_state.
Qed.

Lemma X10_witness :
  let w := mkWorld example_bad_store default_state [] in
  let w' := main_tick Json.loads Json.dumps 30 example_clock
                      (fst tick_ok) (snd tick_ok) example_resources w in
  files w' !! STATE_FILE = None
  /\ last_summary_date (state w') = EmptyString
  /\ sent w' = [].
Proof.
  cbv zeta.
  destruct (X10_summary_exception_skips_save Json.loads Json.dumps 30
              example_clock (fst tick_ok) (snd tick_ok) example_resources
              (mkWorld example_bad_store default_state []))
    as (_ & Hstate & _ & Hdate & Hsent).
  - reflexivity.
  - vm_compute. discriminate.
  - vm_compute. discriminate.
  - vm_compute. discriminate.
  - left. vm_compute. reflexivity.
  - split; [exact Hstate|]. split; [exact Hdate | exact Hsent].
Defined.



(** ** Lines of arbitrary files *)









Lemma filter_filter_implied {A : Type} (f g : A -> bool) (l : list A) :
  (forall x, g x = true -> f x = true) ->
  List.filter g (List.filter f l) = List.filter g l.
Proof.
  intros Himp. induction l as [|x l IH]; [reflexivity|].
  cbn [List.filter]. destruct (f x) eqn:Hf; cbn [List.filter].
  - rewrite IH. reflexivity.
  - destruct (g x) eqn:Hg; [|exact IH].
    apply Himp in Hg. congruence.
Qed.

Lemma leb_trans (a b c : string) :
  String.leb a b = true -> String.leb b c = true -> String.leb a c = true.
Proof.
  intros Hab Hbc. apply Is_true_true. apply Is_true_true in Hab, Hbc.
  exact (transitivity (R := String.le) Hab Hbc).
Qed.

(** ** More on pruning *)

Section PruneMore.
Variable json_loads : string -> option json.


(** A line kept with a cutoff is kept with every earlier cutoff. *)
Lemma kept_with_earlier_cutoff (cutoff cutoff' line : string) :
  String.leb cutoff' cutoff = true ->
  keep_line json_loads cutoff line = true ->
  keep_line json_loads cutoff' line = true.
Proof.
  unfold keep_line. intros Hle.
  destruct (json_loads line) as [s|]; [|discriminate].
  destruct (timestamp_prefix s) as [[| | | |t| |]|]; try discriminate.
  cbn [ge_str]. intros Ht. exact (leb_trans _ _ _ Hle Ht).
Qed.


End PruneMore.




(** X14.  A longer retention keeps every line that a shorter one keeps:
    with [r <= r'] days, the lines kept with retention [r] are a
    subsequence of the lines kept with retention [r']. *)
Theorem X14_longer_retention_keeps_more :
  forall (json_loads : string -> option json) (now : Date) (r r' : nat)
         (content : string),
    (r <= r')%nat ->
    valid_date (minus_days (Z.of_nat r) now) ->
    valid_date (minus_days (Z.of_nat r') now) ->
    let kept days :=
      List.filter
        (keep_line json_loads (strftime_ymd (minus_days (Z.of_nat days) now)))
        (file_lines content) in
    sublist (kept r) (kept r')
    /\ forall line, In line (kept r) -> In line (kept r').
Proof.
  intros json_loads now r r' content Hrr Hr Hr' kept.
  assert (Hle : String.leb (strftime_ymd (minus_days (Z.of_nat r') now))
                           (strftime_ymd (minus_days (Z.of_nat r) now)) = true).
  { rewrite strftime_leb by assumption. rewrite minus_days_leb.
    apply Nat.leb_le. exact Hrr. }
  assert (Himp : forall line,
            keep_line json_loads (strftime_ymd (minus_days (Z.of_nat r) now)) line
              = true ->
            keep_line json_loads (strftime_ymd (minus_days (Z.of_nat r') now)) line
              = true).
  { intros line. apply kept_with_earlier_cutoff. exact Hle. }
  split.
  - subst kept. cbv beta.
    rewrite <- (filter_filter_implied _ _ (file_lines content) Himp).
    apply filter_is_sublist.
  - intros line. subst kept. cbv beta. rewrite !filter_In.
    intros [Hin Hkeep]. split; [exact Hin | apply Himp, Hkeep].
Qed.

Lemma X14_witness :
  let kept days :=
    List.filter
      (keep_line Json.loads
                 (strftime_ymd (minus_days (Z.of_nat days) (mkDate 2024 3 10))))
      (file_lines (concat_lines
                     [example_line "2024-01-05T10:00:00.000001+00:00" UP UP;
                      example_line "2024-02-09T23:59:00.250000+00:00" DOWN UP;
                      example_line "2024-03-09T00:00:30.500000+00:00" UP UP])) in
  sublist (kept 7%nat) (kept 30%nat)
  /\ forall line, In line (kept 7%nat) -> In line (kept 30%nat).
Proof.
  apply (X14_longer_retention_keeps_more Json.loads (mkDate 2024 3 10) 7 30).
  - lia.
  - vm_compute. intuition discriminate.
  - vm_compute. intuition discriminate.
Defined.

(** ** The loop runs the alert machine *)







(** ** More on percentiles *)

Section OrderStatistics.
Local Open Scope Q_scope.


Lemma count_le_bound (a : Q) (l : list Q) : (count_le a l <= length l)%nat.
Proof.
  unfold count_le. induction l as [|x l IH]; cbn [List.filter length]; [lia|].
  destruct (Qle_bool x a); cbn [length]; lia.
Qed.






End OrderStatistics.




Section PercentileMonotone.
Local Open Scope Q_scope.
Variables (x : Q) (rest : list Q) (p q : Q).
Hypothesis (p_lo : 0 <= p) (p_q : p <= q) (q_hi : q <= 100).

End PercentileMonotone.




Section PercentileOutOfRange.
Local Open Scope Q_scope.
Variables (x : Q) (rest : list Q).





End PercentileOutOfRange.






(** ** The statistics of a series *)



Section Average.
Local Open Scope Q_scope.


End Average.



(** ** The probes *)

Lemma startswith_app (sub post : string) : startswith sub (sub +:+ post) = true.
Proof.
  induction sub as [|a sub IH]; [reflexivity|].
  change (String a sub +:+ post) with (String a (sub +:+ post)).
  cbn [startswith]. rewrite Ascii.eqb_refl. exact IH.
Qed.



Lemma probe_url_status (address : string) (start finish : Q) (r : Fetch) :
  status (probe_url address start finish r) =
    match r with
    | Responded c => if (c =? 200) || (c =? 304) then UP else DOWN
    | HTTPError c _ =>
        if contains "auth/validate" address && (c =? 401) then UP else DOWN
    | OtherError _ => DOWN
    end.
Proof. destruct r; reflexivity. Qed.

(** X21.  [probe_url] reports UP in exactly two cases: the server answered
    with code 200 or 304, or the request failed with HTTP error 401 and the
    URL contains [auth/validate].  Any other HTTP error, and any other
    exception, is DOWN. *)
Theorem X21_probe_up_exactly :
  forall (address : string) (start finish : Q) (r : Fetch),
    status (probe_url address start finish r) = UP
    <-> (exists c, r = Responded c /\ (c = 200 \/ c = 304))
        \/ (exists msg, r = HTTPError 401 msg
                        /\ contains "auth/validate" address = true).
Proof.
  intros address start finish r. rewrite probe_url_status. split.
  - destruct r as [c | c msg | msg].
    + destruct (Z.eqb_spec c 200) as [-> | H200];
        [intros _; left; exists 200; auto|].
      destruct (Z.eqb_spec c 304) as [-> | H304];
        [intros _; left; exists 304; auto | discriminate].
    + destruct (contains "auth/validate" address) eqn:Hc; [|discriminate].
      destruct (Z.eqb_spec c 401) as [-> | H401]; [|discriminate].
      intros _. right. exists msg. auto.
    + discriminate.
  - intros [(c & -> & [-> | ->]) | (msg & -> & Hc)]; [reflexivity | reflexivity |].
    rewrite Hc. reflexivity.
Qed.

Section Latency.
Local Open Scope Q_scope.

End Latency.






